(** * University decision-support dashboard: derivation and recommendation engines

    Shallow embedding of [src/frontend/App.tsx]:
    - [analyzeDepartmentData]    (lines 39-45)
    - [generateRecommendations]  (lines 47-59)
    - [getAiInsights]            (lines 75-107)
    - [loadSampleData]           (lines 109-121)

    JavaScript numbers are IEEE 754 binary64 values; they are modelled by
    the Standard Library's executable specification [SpecFloat] at
    precision 53 and maximal exponent 1024.  Strings are byte strings
    (the UTF-8 encoding of the source text). *)

From Stdlib Require Import ZArith List String Ascii Bool Lia.
From Stdlib Require Import Floats.SpecFloat.
From Stdlib Require Import DecimalString DecimalN.
Import ListNotations.
Local Open Scope string_scope.
Local Open Scope Z_scope.

(** ** Numbers *)

Module JSNumber.

Definition prec : Z := 53.
Definition emax : Z := 1024.

(** A JavaScript Number. *)
Definition number : Type := spec_float.

Definition NaN : number := S754_nan.
Definition Infinity : number := S754_infinity false.

(** The Number nearest to an integer (round to nearest, ties to even):
    the value of an integer literal and of [Array.prototype.length]. *)
Definition of_Z (z : Z) : number := binary_normalize prec emax z 0 false.

Definition add (x y : number) : number := SFadd prec emax x y.
Definition mul (x y : number) : number := SFmul prec emax x y.
Definition div (x y : number) : number := SFdiv prec emax x y.

(** [x < y] and [x > y]; both are false when either side is NaN. *)
Definition lt (x y : number) : bool := SFltb x y.
Definition gt (x y : number) : bool := SFltb y x.

(** The literal [0.8]: the Number nearest to 4/5, 0x3FE999999999999A. *)
Definition lit_0_8 : number := S754_finite false 7205759403792794 (-53).

(** ToNumber on a possibly absent property: [undefined] becomes NaN. *)
Definition of_undefined (x : option number) : number :=
  match x with
  | Some v => v
  | None => NaN
  end.

Definition is_finite (x : number) : bool :=
  match x with
  | S754_zero _ | S754_finite _ _ _ => true
  | S754_infinity _ | S754_nan => false
  end.

Definition is_zero (x : number) : bool :=
  match x with
  | S754_zero _ => true
  | _ => false
  end.

Definition valid (x : number) : bool := valid_binary prec emax x.

(** The mathematical value of a finite Number as the fraction
    [fst / snd] with a positive denominator ([0/1] for the others). *)
Definition to_frac (x : number) : Z * Z :=
  match x with
  | S754_finite s m e =>
      let n := Z.pos m * 2 ^ Z.max e 0 in
      ((if s then - n else n), 2 ^ Z.max (- e) 0)
  | _ => (0, 1)
  end.

End JSNumber.
Export JSNumber.

(** ** Number formatting: [Number.prototype.toFixed] *)

Module JSFormat.

(** The digits of the decimal representation of a non-negative integer,
    ["0"] for zero. *)
Definition decimal (n : Z) : string :=
  NilEmpty.string_of_uint (N.to_uint (Z.to_N n)).

Fixpoint zeros (k : nat) : string :=
  match k with
  | O => EmptyString
  | S k' => String "0" (zeros k')
  end.

(** Steps 11.c-11.d of toFixed: pad the digit string [m] with leading
    zeros up to [f + 1] characters and put the point before the last
    [f] of them. *)
Definition with_fraction (f : nat) (m : string) : string :=
  if Nat.eqb f 0 then m
  else
    let k := String.length m in
    let m := if Nat.leb k f then zeros (f + 1 - k) ++ m else m in
    let k := String.length m in
    substring 0 (k - f) m ++ "." ++ substring (k - f) f m.

(** The integer [n] for which [n / 10^f - num/den] is as close to zero
    as possible, the larger one when there are two. *)
Definition nearest_scaled (f : nat) (num den : Z) : Z :=
  (2 * num * 10 ^ Z.of_nat f + den) / (2 * den).

(** *** Number::toString for magnitudes of at least 10^21

    There the Number is an integer [X] with [D >= 22] decimal digits and
    the result is in exponent notation: the shortest digit string [s]
    ([k] digits) with an exponent [n] such that [s * 10^(n-k)] reads back
    as the same Number; of several such [s] the closest to [X], of two
    equally close ones the even one. *)

Definition reads_back (x : number) (s n k : Z) : bool :=
  SFeqb (of_Z (s * 10 ^ (n - k))) x.

Definition pick_digits (x : number) (X D k : Z) : option (Z * Z) :=
  let p := 10 ^ (D - k) in
  let lo := X / p in
  let hi := lo + 1 in
  let hi_sn := if hi =? 10 ^ k then (10 ^ (k - 1), D + 1) else (hi, D) in
  let lo_ok := reads_back x lo D k in
  let hi_ok := reads_back x (fst hi_sn) (snd hi_sn) k in
  match lo_ok, hi_ok with
  | false, false => None
  | true, false => Some (lo, D)
  | false, true => Some hi_sn
  | true, true =>
      match (X - lo * p ?= hi * p - X) with
      | Lt => Some (lo, D)
      | Gt => Some hi_sn
      | Eq => if Z.even lo then Some (lo, D) else Some hi_sn
      end
  end.

Fixpoint shortest_digits (fuel : nat) (x : number) (X D k : Z)
  : Z * Z * Z :=
  match fuel with
  | O => (X, D, D)
  | S fuel' =>
      match pick_digits x X D k with
      | Some (s, n) => (s, n, k)
      | None => shortest_digits fuel' x X D (k + 1)
      end
  end.

Definition toString_large (x : number) (X : Z) : string :=
  let D := Z.of_nat (String.length (decimal X)) in
  let '(s, n, k) := shortest_digits 17 x X D 1 in
  let digits := decimal s in
  let mantissa :=
    if k =? 1 then digits
    else substring 0 1 digits ++ "."
         ++ substring 1 (String.length digits - 1) digits in
  mantissa ++ "e+" ++ decimal (n - 1).

(** The string built by [x.toFixed(f)] for [0 <= f <= 100]. *)
Definition toFixed_string (x : number) (f : nat) : string :=
  match x with
  | S754_nan => "NaN"
  | S754_infinity s => if s then "-Infinity" else "Infinity"
  | S754_zero _ => with_fraction f "0"
  | S754_finite s m e =>
      let num := Z.pos m * 2 ^ Z.max e 0 in
      let den := 2 ^ Z.max (- e) 0 in
      let sgn := if s then "-" else "" in
      if 10 ^ 21 * den <=? num
      then sgn ++ toString_large (S754_finite false m e) (num / den)
      else sgn ++ with_fraction f (decimal (nearest_scaled f num den))
  end.

End JSFormat.
Export JSFormat.

(** ** Exceptions *)

Module JSResult.

Inductive exn := TypeError | RangeError | SyntaxError.

(** The outcome of an evaluation that may throw (or of a promise that
    may reject). *)
Inductive result (A : Type) : Type :=
| Ok (a : A)
| Throw (e : exn).
Arguments Ok {A} a.
Arguments Throw {A} e.

Definition bind {A B : Type} (r : result A) (k : A -> result B)
  : result B :=
  match r with
  | Ok a => k a
  | Throw e => Throw e
  end.

(** [try { r } catch (error) { h }] *)
Definition try_catch {A : Type} (r : result A) (h : exn -> A) : A :=
  match r with
  | Ok a => a
  | Throw e => h e
  end.

End JSResult.
Export JSResult.

Notation "x <- r ;; k" := (bind r (fun x => k))
  (at level 61, r at next level, right associativity).

(** ** Arrays *)

Module JSArray.

(** [a.push(x)], as a new array. *)
Definition push {A : Type} (a : list A) (x : A) : list A := a ++ [x].

(** [a.reduce(f, init)] *)
Definition reduce {A B : Type} (f : B -> A -> B) (init : B) (a : list A)
  : B := fold_left f a init.

(** [a.forEach(callback)] where the callback updates a captured
    variable of type [S] and may throw. *)
Fixpoint forEach {S A : Type} (callback : S -> A -> result S)
  (a : list A) (s : S) : result S :=
  match a with
  | [] => Ok s
  | x :: a' => s' <- callback s x ;; forEach callback a' s'
  end.

(** [a.length] *)
Definition length_number {A : Type} (a : list A) : number :=
  of_Z (Z.of_nat (List.length a)).

End JSArray.
Export JSArray.

(** [x.toFixed(fractionDigits)] on a property that may be [undefined]. *)
Definition toFixed (x : option number) (fractionDigits : nat)
  : result string :=
  match x with
  | None => Throw TypeError
  | Some v =>
      if Nat.ltb 100 fractionDigits then Throw RangeError
      else Ok (toFixed_string v fractionDigits)
  end.

(** ** The application *)

(** [interface Department].  The property [Department] is the field
    [Department_name]; the two optional properties are [None] when
    absent. *)
Record Department : Type := mkDepartment {
  Department_name : string;
  Students : number;
  Faculty : number;
  Budget : number;
  Student_Faculty_Ratio : option number;
  Budget_per_Student : option number
}.

(** [{...dept, 'Student-Faculty Ratio': r, 'Budget per Student': b}] *)
Definition with_derived (dept : Department) (r b : number) : Department :=
  {| Department_name := Department_name dept;
     Students := Students dept;
     Faculty := Faculty dept;
     Budget := Budget dept;
     Student_Faculty_Ratio := Some r;
     Budget_per_Student := Some b |}.

Definition analyzeDepartmentData (departments : list Department)
  : list Department :=
  map (fun dept =>
         with_derived dept
           (div (Students dept) (Faculty dept))
           (div (Budget dept) (Students dept)))
      departments.

Definition high_ratio_message (name ratio : string) : string :=
  ("🚨 High student-faculty ratio in " ++ name ++ " (" ++ ratio
   ++ ":1). Consider hiring more faculty.")%string.

Definition low_budget_message (name amount : string) : string :=
  ("💰 Low budget per student in " ++ name ++ " ($" ++ amount
   ++ "). Consider budget increase.")%string.

(** The average recomputed inside the callback (line 53). *)
Definition avgBudgetPerStudent (departments : list Department) : number :=
  div (reduce (fun acc d => add acc (div (Budget d) (Students d)))
              (of_Z 0) departments)
      (length_number departments).

(** The body of the [forEach] callback (lines 50-56); [recommendations]
    is the captured array. *)
Definition recommend_one (departments : list Department)
  (recommendations : list string) (dept : Department)
  : result (list string) :=
  recommendations <-
    (if gt (of_undefined (Student_Faculty_Ratio dept)) (of_Z 30)
     then
       ratio <- toFixed (Student_Faculty_Ratio dept) 1 ;;
       Ok (push recommendations
                (high_ratio_message (Department_name dept) ratio))
     else Ok recommendations) ;;
  let avg := avgBudgetPerStudent departments in
  if lt (of_undefined (Budget_per_Student dept)) (mul avg lit_0_8)
  then
    amount <- toFixed (Budget_per_Student dept) 2 ;;
    Ok (push recommendations
             (low_budget_message (Department_name dept) amount))
  else Ok recommendations.

Definition generateRecommendations (departments : list Department)
  : result (list string) :=
  forEach (recommend_one departments) departments [].

(** The sample array of [loadSampleData]. *)
Definition sample (name : string) (students faculty budget : Z)
  : Department :=
  mkDepartment name (of_Z students) (of_Z faculty) (of_Z budget) None None.

Definition sampleData : list Department :=
  [ sample "Computer Science" 450 12 2000000;
    sample "Mathematics" 300 10 1500000;
    sample "Physics" 200 8 1800000;
    sample "Chemistry" 250 9 1700000;
    sample "Biology" 350 11 1900000;
    sample "Engineering" 500 15 2500000;
    sample "Psychology" 400 10 1600000;
    sample "Economics" 350 9 1400000 ].

(** ** The insight request *)

Set Warnings "-register-all".

(** A JavaScript value as [response.json()] can produce it, and
    [undefined].  An object is the list of its own properties. *)
Inductive value : Type :=
| VUndefined
| VNull
| VBool (b : bool)
| VNumber (n : number)
| VString (s : string)
| VArray (elements : list value)
| VObject (properties : list (string * value)).

Fixpoint own_property (key : string) (properties : list (string * value))
  : value :=
  match properties with
  | [] => VUndefined
  | (k, v) :: rest =>
      if String.eqb k key then v else own_property key rest
  end.

(** [v.key] for a key that is no index and that no prototype defines
    (here [choices], [message] and [content]). *)
Definition get (v : value) (key : string) : result value :=
  match v with
  | VUndefined | VNull => Throw TypeError
  | VObject properties => Ok (own_property key properties)
  | VBool _ | VNumber _ | VString _ | VArray _ => Ok VUndefined
  end.

(** [v[0]] *)
Definition get_0 (v : value) : result value :=
  match v with
  | VUndefined | VNull => Throw TypeError
  | VObject properties => Ok (own_property "0" properties)
  | VArray [] => Ok VUndefined
  | VArray (x :: _) => Ok x
  | VString EmptyString => Ok VUndefined
  | VString (String c _) => Ok (VString (String c EmptyString))
  | VBool _ | VNumber _ => Ok VUndefined
  end.

(** What [fetch] resolves to: the status and the outcome of
    [response.json()], which rejects when the body is not JSON. *)
Record Response : Type := mkResponse {
  status : Z;
  json : result value
}.

(** The values the prompt embeds (lines 78-80 and 93-95). *)
Record AggregateSummary : Type := mkSummary {
  totalStudents : number;
  avgRatio : string;
  totalBudget : string
}.

Record AppState : Type := mkState {
  data : list Department;
  aiInsight : value;
  loading : bool
}.

Definition setAiInsight (v : value) (st : AppState) : AppState :=
  mkState (data st) v (loading st).

Definition setLoading (b : bool) (st : AppState) : AppState :=
  mkState (data st) (aiInsight st) b.

(** [x || 0] on an optional number: [undefined], NaN and zero are falsy. *)
Definition or_zero (x : option number) : number :=
  match x with
  | None | Some S754_nan | Some (S754_zero _) => of_Z 0
  | Some v => v
  end.

Definition fallback_message : string :=
  "Error getting AI insights. Please try again later.".

(** The [try] block (lines 78-102): the value handed to [setAiInsight],
    or the exception that reaches the [catch].  [fetch] stands for the
    network: it rejects or resolves to a response. *)
Definition requestInsight (fetch : AggregateSummary -> result Response)
  (data : list Department) : result value :=
  let totalStudents :=
    reduce (fun acc dept => add acc (Students dept)) (of_Z 0) data in
  let avgRatio :=
    div (reduce (fun acc dept =>
                   add acc (or_zero (Student_Faculty_Ratio dept)))
                (of_Z 0) data)
        (length_number data) in
  let totalBudget :=
    reduce (fun acc dept => add acc (Budget dept)) (of_Z 0) data in
  ratio <- toFixed (Some avgRatio) 1 ;;
  budget <- toFixed (Some totalBudget) 2 ;;
  response <- fetch (mkSummary totalStudents ratio budget) ;;
  result <- json response ;;
  choices <- get result "choices" ;;
  choice <- get_0 choices ;;
  message <- get choice "message" ;;
  get message "content".

Definition getAiInsights (fetch : AggregateSummary -> result Response)
  (st : AppState) : AppState :=
  let st := setLoading true st in
  let st :=
    try_catch
      (content <- requestInsight fetch (data st) ;;
       Ok (setAiInsight content st))
      (fun error => setAiInsight (VString fallback_message) st) in
  setLoading false st.

(** [loadSampleData]: [setData(analyzeDepartmentData(sampleData))]. *)
Definition loadSampleData (st : AppState) : AppState :=
  mkState (analyzeDepartmentData sampleData) (aiInsight st) (loading st).

(** ** The rules as the specification words them *)

Module Spec.

(** Rule 1: a warning when the ratio is above 30. *)
Definition high_ratio_rule (dept : Department) : list string :=
  match Student_Faculty_Ratio dept with
  | Some r =>
      if gt r (of_Z 30)
      then [high_ratio_message (Department_name dept) (toFixed_string r 1)]
      else []
  | None => []
  end.

(** Rule 2: a warning when the budget per student is below 80% of the
    average [avg]. *)
Definition low_budget_rule (avg : number) (dept : Department)
  : list string :=
  match Budget_per_Student dept with
  | Some b =>
      if lt b (mul avg lit_0_8)
      then [low_budget_message (Department_name dept) (toFixed_string b 2)]
      else []
  | None => []
  end.

(** Zero or more recommendations per record, in input order, rule 1
    before rule 2. *)
Definition recommendations (departments : list Department) : list string :=
  flat_map (fun dept =>
              (high_ratio_rule dept
               ++ low_budget_rule (avgBudgetPerStudent departments) dept)%list)
           departments.

(** The variant that computes the average once per call. *)
Definition recommend_one_hoisted (avg : number)
  (recommendations : list string) (dept : Department)
  : result (list string) :=
  recommendations <-
    (if gt (of_undefined (Student_Faculty_Ratio dept)) (of_Z 30)
     then
       ratio <- toFixed (Student_Faculty_Ratio dept) 1 ;;
       Ok (push recommendations
                (high_ratio_message (Department_name dept) ratio))
     else Ok recommendations) ;;
  if lt (of_undefined (Budget_per_Student dept)) (mul avg lit_0_8)
  then
    amount <- toFixed (Budget_per_Student dept) 2 ;;
    Ok (push recommendations
             (low_budget_message (Department_name dept) amount))
  else Ok recommendations.

Definition generateRecommendations_hoisted (departments : list Department)
  : result (list string) :=
  let avg := avgBudgetPerStudent departments in
  forEach (recommend_one_hoisted avg) departments [].

(** The original properties of a record. *)
Definition base_fields (dept : Department)
  : string * number * number * number :=
  (Department_name dept, Students dept, Faculty dept, Budget dept).

End Spec.

(** ** Reading the emitted strings *)

Module Shape.

Definition is_digit (c : ascii) : bool :=
  (Nat.leb 48 (nat_of_ascii c) && Nat.leb (nat_of_ascii c) 57)%bool.

Fixpoint all_digits (t : string) : bool :=
  match t with
  | EmptyString => true
  | String c t' => (is_digit c && all_digits t')%bool
  end.

(** Exactly [f] digits. *)
Fixpoint fraction_ok (f : nat) (t : string) : bool :=
  match f, t with
  | O, EmptyString => true
  | S f', String c t' => (is_digit c && fraction_ok f' t')%bool
  | _, _ => false
  end.

(** Further digits of the integer part, then the point and [f] digits. *)
Fixpoint integer_then_fraction (f : nat) (t : string) : bool :=
  match t with
  | EmptyString => false
  | String c t' =>
      if is_digit c then integer_then_fraction f t'
      else (Ascii.eqb c "." && fraction_ok f t')%bool
  end.

Definition unsigned_fixed (f : nat) (t : string) : bool :=
  match t with
  | EmptyString => false
  | String c t' => (is_digit c && integer_then_fraction f t')%bool
  end.

(** A decimal numeral with exactly [f >= 1] digits after the point:
    an optional minus sign, one or more digits, the point, [f] digits. *)
Definition is_fixed_decimal (f : nat) (t : string) : bool :=
  (unsigned_fixed f t
   || match t with
      | EmptyString => false
      | String c t' => Ascii.eqb c "-" && unsigned_fixed f t'
      end)%bool.

Fixpoint starts_with (p t : string) : bool :=
  match p, t with
  | EmptyString, _ => true
  | String a p', String b t' => (Ascii.eqb a b && starts_with p' t')%bool
  | String _ _, EmptyString => false
  end.

Definition is_high_ratio_message (t : string) : bool :=
  starts_with "🚨 High student-faculty ratio in " t.

Definition is_low_budget_message (t : string) : bool :=
  starts_with "💰 Low budget per student in " t.

(** Finite and of magnitude below 10^21: where toFixed prints digits. *)
Definition fixed_range (x : number) : bool :=
  match x with
  | S754_zero _ => true
  | S754_finite _ m e =>
      Z.pos m * 2 ^ Z.max e 0 <? 10 ^ 21 * 2 ^ Z.max (- e) 0
  | S754_infinity _ | S754_nan => false
  end.

Definition sign_string (x : number) : string :=
  match x with
  | S754_finite true _ _ => "-"
  | _ => ""
  end.

(** [x] is finite and [n] is the integer nearest to [|x| * 10^f], the
    larger one of two: [-1/2 <= |x| * 10^f - n < 1/2] for [|x| = p/q]. *)
Definition rounds_to (f : nat) (x : number) (n : Z) : Prop :=
  let p := fst (to_frac (SFabs x)) in
  let q := snd (to_frac (SFabs x)) in
  is_finite x = true
  /\ - q <= 2 * (p * 10 ^ Z.of_nat f - n * q) < q.

(** [t] shows [x] rounded to [f] decimal places. *)
Definition shows_rounded (f : nat) (x : number) (t : string) : Prop :=
  is_fixed_decimal f t = true
  /\ exists n : Z,
       rounds_to f x n
       /\ t = (sign_string x ++ with_fraction f (decimal n))%string.

End Shape.
Export Shape.

(** ** Fixtures *)

Module Fixture.

(** The derived values of the eight sample departments: department,
    ratio, budget per student. *)
Definition golden : list (string * number * number) :=
  [ ("Computer Science", S754_finite false 5277655813324800 (-47),
                         S754_finite false 4886718345671111 (-40));
    ("Mathematics",      S754_finite false 8444249301319680 (-48),
                         S754_finite false 5497558138880000 (-40));
    ("Physics",          S754_finite false 7036874417766400 (-48),
                         S754_finite false 4947802324992000 (-39));
    ("Chemistry",        S754_finite false 7818749353073778 (-48),
                         S754_finite false 7476679068876800 (-40));
    ("Biology",          S754_finite false 8956021986248145 (-48),
                         S754_finite false 5968777407926857 (-40));
    ("Engineering",      S754_finite false 4691249611844267 (-47),
                         S754_finite false 5497558138880000 (-40));
    ("Psychology",       S754_finite false 5629499534213120 (-47),
                         S754_finite false 8796093022208000 (-41));
    ("Economics",        S754_finite false 5473124547151644 (-47),
                         S754_finite false 8796093022208000 (-41)) ].

(** The same values as toFixed prints them with 1 and 2 digits. *)
Definition golden_printed : list (string * string * string) :=
  [ ("Computer Science", "37.5", "4444.44");
    ("Mathematics",      "30.0", "5000.00");
    ("Physics",          "25.0", "9000.00");
    ("Chemistry",        "27.8", "6800.00");
    ("Biology",          "31.8", "5428.57");
    ("Engineering",      "33.3", "5000.00");
    ("Psychology",       "40.0", "4000.00");
    ("Economics",        "38.9", "4000.00") ].

Definition computer_science : Department :=
  sample "Computer Science" 450 12 2000000.

Definition derived_of (dept : Department) : string * number * number :=
  (Department_name dept,
   of_undefined (Student_Faculty_Ratio dept),
   of_undefined (Budget_per_Student dept)).

Definition printed_of (dept : Department) : string * string * string :=
  (Department_name dept,
   toFixed_string (of_undefined (Student_Faculty_Ratio dept)) 1,
   toFixed_string (of_undefined (Budget_per_Student dept)) 2).

End Fixture.

Module Example.

Definition psychology : Department := sample "Psychology" 400 10 1600000.

(** A ratio of exactly 30, and one of 30.1. *)
Definition ratio_30 : Department := sample "A" 300 10 1500000.
Definition ratio_30_1 : Department := sample "A" 301 10 1500000.

(** Budgets per student 11, 11, 8: the third is exactly 80% of the mean
    10; and 11, 11, 7: the third is below 80% of the mean. *)
Definition at_threshold : list Department :=
  [sample "A" 1 1 11; sample "B" 1 1 11; sample "C" 1 1 8].
Definition below_threshold : list Department :=
  [sample "A" 1 1 11; sample "B" 1 1 11; sample "C" 1 1 7].

(** No faculty, and neither faculty nor students. *)
Definition no_faculty : Department := sample "X" 5 0 100.
Definition no_students : Department := sample "Y" 0 0 100.

(** Budgets per student of 10^21 and 10^30. *)
Definition huge_budgets : list Department :=
  [sample "A" 1 1 (10 ^ 21); sample "B" 1 1 (10 ^ 30)].

End Example.

(** ** Reading the insight request *)

Module Insight.

(** The summary [getAiInsights] computes from the dataset. *)
Definition summary_of (data : list Department) : AggregateSummary :=
  mkSummary
    (reduce (fun acc dept => add acc (Students dept)) (of_Z 0) data)
    (toFixed_string
       (div (reduce (fun acc dept =>
                       add acc (or_zero (Student_Faculty_Ratio dept)))
                    (of_Z 0) data)
            (length_number data)) 1)
    (toFixed_string
       (reduce (fun acc dept => add acc (Budget dept)) (of_Z 0) data) 2).

(** [result.choices[0].message.content] *)
Definition content_of (body : value) : result value :=
  choices <- get body "choices" ;;
  choice <- get_0 choices ;;
  message <- get choice "message" ;;
  get message "content".

Definition is_2xx (status : Z) : bool :=
  ((200 <=? status) && (status <? 300))%bool.

(** A completion payload whose first choice carries [content]. *)
Definition completion (content : value) : value :=
  VObject
    [("choices",
      VArray [VObject [("message", VObject [("content", content)])]])].

(** A payload whose first choice has a message without content. *)
Definition no_content : value :=
  VObject [("choices", VArray [VObject [("message", VObject [])]])].

Definition idle : AppState :=
  mkState (analyzeDepartmentData sampleData) (VString "") false.

End Insight.

(** ** The page: loading data and user actions *)

Module Page.

Definition setData (d : list Department) (st : AppState) : AppState :=
  mkState d (aiInsight st) (loading st).

(** [handleFileUpload] (lines 61-73).  [rows] is what the CSV parser hands
    to [complete] for the chosen file, read as [Department[]]; it is
    [None] when no file was chosen, and then nothing happens. *)
Definition handleFileUpload (rows : option (list Department))
  (st : AppState) : AppState :=
  match rows with
  | Some parsed =>
      let analyzedData := analyzeDepartmentData parsed in
      setData analyzedData st
  | None => st
  end.

(** What the user can do on the page. *)
Inductive action : Type :=
| ChooseFile (rows : option (list Department))
| UseSampleData
| GetAiInsights (fetch : AggregateSummary -> result Response).

Definition perform (st : AppState) (a : action) : AppState :=
  match a with
  | ChooseFile rows => handleFileUpload rows st
  | UseSampleData => loadSampleData st
  | GetAiInsights fetch => getAiInsights fetch st
  end.

(** [useState([])], [useState('')], [useState(false)]. *)
Definition initial : AppState := mkState [] (VString "") false.

Definition after (actions : list action) : AppState :=
  fold_left perform actions initial.

(** A record whose derived properties are the quotients of its own base
    properties. *)
Definition derived_ok (dept : Department) : Prop :=
  Student_Faculty_Ratio dept = Some (div (Students dept) (Faculty dept))
  /\ Budget_per_Student dept = Some (div (Budget dept) (Students dept)).

End Page.

(** ** Reading a payload without throwing *)

Module Chain.

Definition nullish (v : value) : bool :=
  match v with
  | VUndefined | VNull => true
  | _ => false
  end.

(** [v?.key] and [v?.[0]] *)
Definition peek (key : string) (v : value) : value :=
  try_catch (get v key) (fun _ => VUndefined).

Definition peek_0 (v : value) : value :=
  try_catch (get_0 v) (fun _ => VUndefined).

(** [body?.choices?.[0]?.message] *)
Definition message_of (body : value) : value :=
  peek "message" (peek_0 (peek "choices" body)).

End Chain.

(** ** Classes of numbers *)

Module NumberClass.

Definition is_nan (x : number) : bool :=
  match x with
  | S754_nan => true
  | _ => false
  end.

(** [+0], a positive finite number or [+Infinity]. *)
Definition nonneg (x : number) : bool :=
  match x with
  | S754_zero false | S754_finite false _ _ | S754_infinity false => true
  | _ => false
  end.

(** A ratio property that is absent, NaN, a zero or positive. *)
Definition countable_ratio (x : option number) : bool :=
  match x with
  | None => true
  | Some r => (is_nan r || is_zero r || nonneg r)%bool
  end.

(** The term a record adds to the sum of the average. *)
Definition budget_term (dept : Department) : number :=
  div (Budget dept) (Students dept).

End NumberClass.
Export NumberClass.

(** ** Integers as Numbers *)

Module Exact.

(** The Number that represents the integer [m < 2^53] exactly: the
    mantissa [m] shifted to 53 bits, with the matching exponent. *)
Definition canonical (m : positive) : number :=
  let d := 53 - Z.pos (digits2_pos m) in
  S754_finite false (Z.to_pos (Z.pos m * 2 ^ d)) (- d).

(** The sum a reduction computes over integer values. *)
Definition sum_Z (l : list Z) : Z := fold_left Z.add l 0.

End Exact.

(** * Properties *)

(** ** The recommendation loop *)

Lemma toFixed_defined (v : number) (f : nat) :
  (f <= 100)%nat -> toFixed (Some v) f = Ok (toFixed_string v f).
Proof.
  intros Hf. unfold toFixed.
  destruct (Nat.ltb 100 f) eqn:E; [|reflexivity].
  apply Nat.ltb_lt in E. lia.
Qed.

Lemma gt_undefined (y : number) : gt (of_undefined None) y = false.
Proof. unfold gt, of_undefined, NaN, SFltb. destruct y; reflexivity. Qed.

Lemma lt_undefined (y : number) : lt (of_undefined None) y = false.
Proof. reflexivity. Qed.

Section Loop.

Variable departments : list Department.

Let rules (dept : Department) : list string :=
  (Spec.high_ratio_rule dept
   ++ Spec.low_budget_rule (avgBudgetPerStudent departments) dept)%list.

Lemma recommend_one_rules (acc : list string) (dept : Department) :
  recommend_one departments acc dept = Ok (acc ++ rules dept)%list.
Proof.
  unfold recommend_one, rules, Spec.high_ratio_rule, Spec.low_budget_rule,
    push.
  destruct (Student_Faculty_Ratio dept) as [r|].
  - cbn [of_undefined]. rewrite toFixed_defined by lia.
    destruct (gt r (of_Z 30)); cbn [bind];
      destruct (Budget_per_Student dept) as [b|].
    + cbn [of_undefined]. rewrite toFixed_defined by lia.
      destruct (lt b _); cbn [bind]; now rewrite <- ?app_assoc, ?app_nil_r.
    + rewrite lt_undefined. now rewrite app_nil_r.
    + cbn [of_undefined]. rewrite toFixed_defined by lia.
      destruct (lt b _); cbn [bind]; now rewrite ?app_nil_r.
    + rewrite lt_undefined. now rewrite app_nil_r.
  - rewrite gt_undefined. cbn [bind].
    destruct (Budget_per_Student dept) as [b|].
    + cbn [of_undefined]. rewrite toFixed_defined by lia.
      destruct (lt b _); cbn [bind]; now rewrite ?app_nil_r.
    + rewrite lt_undefined. now rewrite app_nil_r.
Qed.

Lemma forEach_recommend_one (l : list Department) (acc : list string) :
  forEach (recommend_one departments) l acc
  = Ok (acc ++ flat_map rules l)%list.
Proof.
  revert acc. induction l as [|dept l IH]; intros acc; cbn [forEach flat_map].
  - now rewrite app_nil_r.
  - rewrite recommend_one_rules. cbn [bind]. rewrite IH.
    now rewrite <- app_assoc.
Qed.

End Loop.

Lemma generateRecommendations_rules (departments : list Department) :
  generateRecommendations departments = Ok (Spec.recommendations departments).
Proof.
  unfold generateRecommendations. now rewrite forEach_recommend_one.
Qed.

(** ** The derivation engine *)

Lemma base_fields_with_derived (dept : Department) (r b : number) :
  Spec.base_fields (with_derived dept r b) = Spec.base_fields dept.
Proof. reflexivity. Qed.

(** C1: [analyzeDepartmentData] returns a sequence of the same length and
    order; every output record is its input record with the two derived
    properties set, and the properties [Department], [Students],
    [Faculty] and [Budget] are unchanged. *)
Theorem analyzeDepartmentData_frame (departments : list Department) :
  List.length (analyzeDepartmentData departments) = List.length departments
  /\ map Spec.base_fields (analyzeDepartmentData departments)
     = map Spec.base_fields departments
  /\ forall i : nat,
       nth_error (analyzeDepartmentData departments) i
       = option_map
           (fun dept =>
              {| Department_name := Department_name dept;
                 Students := Students dept;
                 Faculty := Faculty dept;
                 Budget := Budget dept;
                 Student_Faculty_Ratio :=
                   Some (div (Students dept) (Faculty dept));
                 Budget_per_Student :=
                   Some (div (Budget dept) (Students dept)) |})
           (nth_error departments i).
Proof.
  unfold analyzeDepartmentData. split; [apply length_map|]. split.
  - rewrite map_map. apply map_ext. intros dept.
    apply base_fields_with_derived.
  - intros i. apply nth_error_map.
Qed.

(** C10: [analyzeDepartmentData] is idempotent: the derived properties are
    recomputed from the unchanged base properties and overwrite the
    existing ones. *)
Theorem analyzeDepartmentData_idempotent (departments : list Department) :
  analyzeDepartmentData (analyzeDepartmentData departments)
  = analyzeDepartmentData departments.
Proof.
  unfold analyzeDepartmentData. rewrite map_map.
  apply map_ext. intros dept. reflexivity.
Qed.

(** C2: the derived properties are the quotients [Students / Faculty] and
    [Budget / Students] of the record; the Computer Science sample
    (450, 12, 2000000) gets the ratio 37.5 exactly and the budget per
    student 4444.44..., the Number nearest to 40000/9; loading the sample
    data yields the fixed table of derived values. *)
Theorem derived_fields_are_quotients :
  (forall departments : list Department,
      map Student_Faculty_Ratio (analyzeDepartmentData departments)
      = map (fun dept => Some (div (Students dept) (Faculty dept)))
            departments
      /\ map Budget_per_Student (analyzeDepartmentData departments)
         = map (fun dept => Some (div (Budget dept) (Students dept)))
               departments)
  /\ (exists r b : number,
         analyzeDepartmentData [Fixture.computer_science]
         = [with_derived Fixture.computer_science r b]
         /\ 2 * fst (to_frac r) = 75 * snd (to_frac r)
         /\ snd (to_frac b) = 2 ^ 40
         /\ 2 * Z.abs (9 * fst (to_frac b) - 40000 * snd (to_frac b)) <= 9
         /\ 444444 * snd (to_frac b) < 100 * fst (to_frac b)
            < 444445 * snd (to_frac b)
         /\ toFixed_string r 1 = "37.5"
         /\ toFixed_string b 2 = "4444.44")
  /\ (forall st : AppState,
         map Fixture.derived_of (data (loadSampleData st)) = Fixture.golden
         /\ map Fixture.printed_of (data (loadSampleData st))
            = Fixture.golden_printed).
Proof.
  split; [|split].
  - intros departments. unfold analyzeDepartmentData.
    rewrite !map_map. split; apply map_ext; reflexivity.
  - exists (S754_finite false 5277655813324800 (-47)),
           (S754_finite false 4886718345671111 (-40)).
    split; [vm_compute; reflexivity|].
    repeat split; vm_compute; try reflexivity; discriminate.
  - intros st. split; vm_compute; reflexivity.
Qed.

(** C7: a zero denominator does not make the derivation fail or drop the
    record.  The output record at the same position keeps the base
    properties; with [Faculty] zero its [Student-Faculty Ratio], and with
    [Students] zero its [Budget per Student], is the non-finite quotient:
    NaN when the numerator is a zero or NaN, and otherwise the infinity
    whose sign is the product of the two signs. *)
Theorem zero_denominators_pass_through
  (departments : list Department) (i : nat) (dept : Department) :
  nth_error departments i = Some dept ->
  exists (out : Department) (r b : number),
    nth_error (analyzeDepartmentData departments) i = Some out
    /\ Spec.base_fields out = Spec.base_fields dept
    /\ Student_Faculty_Ratio out = Some r
    /\ Budget_per_Student out = Some b
    /\ (forall sf : bool,
           Faculty dept = S754_zero sf ->
           is_finite r = false
           /\ r = match Students dept with
                  | S754_zero _ | S754_nan => NaN
                  | S754_infinity s | S754_finite s _ _ =>
                      S754_infinity (xorb s sf)
                  end)
    /\ (forall ss : bool,
           Students dept = S754_zero ss ->
           is_finite b = false
           /\ b = match Budget dept with
                  | S754_zero _ | S754_nan => NaN
                  | S754_infinity s | S754_finite s _ _ =>
                      S754_infinity (xorb s ss)
                  end).
Proof.
  intros Hi.
  exists (with_derived dept (div (Students dept) (Faculty dept))
                           (div (Budget dept) (Students dept))),
         (div (Students dept) (Faculty dept)),
         (div (Budget dept) (Students dept)).
  split.
  { unfold analyzeDepartmentData. rewrite nth_error_map, Hi. reflexivity. }
  split; [reflexivity|]. split; [reflexivity|]. split; [reflexivity|].
  split.
  - intros sf ->. destruct (Students dept); split; reflexivity.
  - intros ss ->. destruct (Budget dept); split; reflexivity.
Qed.

(** Five students without faculty: the stored ratio is [Infinity].
    Neither students nor faculty, with a budget of 100: the stored ratio
    is NaN and the stored budget per student is [Infinity]. *)
Lemma zero_denominators_witness :
  (exists out : Department,
      nth_error (analyzeDepartmentData
                   [Example.no_faculty; Example.no_students]) 0
      = Some out
      /\ Student_Faculty_Ratio out = Some Infinity)
  /\ (exists out : Department,
         nth_error (analyzeDepartmentData
                      [Example.no_faculty; Example.no_students]) 1
         = Some out
         /\ Student_Faculty_Ratio out = Some NaN
         /\ Budget_per_Student out = Some Infinity).
Proof.
  split.
  - destruct (zero_denominators_pass_through
                [Example.no_faculty; Example.no_students] 0
                Example.no_faculty eq_refl)
      as (out & r & b & Hnth & _ & Hr & _ & Hzero & _).
    exists out. split; [exact Hnth|].
    destruct (Hzero false eq_refl) as [_ Hval].
    rewrite Hr, Hval. reflexivity.
  - destruct (zero_denominators_pass_through
                [Example.no_faculty; Example.no_students] 1
                Example.no_students eq_refl)
      as (out & r & b & Hnth & _ & Hr & Hb & Hzf & Hzs).
    exists out. split; [exact Hnth|].
    destruct (Hzf false eq_refl) as [_ Hrv].
    destruct (Hzs false eq_refl) as [_ Hbv].
    rewrite Hr, Hb, Hrv, Hbv. split; reflexivity.
Defined.

(** ** The strings toFixed builds *)

Section DigitStrings.

Lemma all_digits_string_of_uint (u : Decimal.uint) :
  all_digits (NilEmpty.string_of_uint u) = true.
Proof. induction u; cbn [NilEmpty.string_of_uint all_digits]; auto. Qed.

Lemma string_of_uint_empty (u : Decimal.uint) :
  NilEmpty.string_of_uint u = EmptyString -> u = Decimal.Nil.
Proof. destruct u; cbn; intros H; try discriminate; reflexivity. Qed.

Lemma decimal_all_digits (n : Z) : all_digits (decimal n) = true.
Proof. apply all_digits_string_of_uint. Qed.

Lemma decimal_nonempty (n : Z) : decimal n <> EmptyString.
Proof.
  unfold decimal. intros H. apply string_of_uint_empty in H.
  destruct (Z.to_N n) as [|p]; cbn in H; [discriminate|].
  now apply DecimalPos.Unsigned.to_uint_nonnil in H.
Qed.

Lemma all_digits_app (s t : string) :
  all_digits (s ++ t) = (all_digits s && all_digits t)%bool.
Proof.
  induction s as [|c s IH]; cbn [append all_digits]; [reflexivity|].
  now rewrite IH, andb_assoc.
Qed.

Lemma all_digits_zeros (k : nat) : all_digits (zeros k) = true.
Proof. induction k; cbn [zeros all_digits]; auto. Qed.

Lemma length_zeros (k : nat) : String.length (zeros k) = k.
Proof. induction k; cbn [zeros String.length]; auto. Qed.

Lemma length_app (s t : string) :
  String.length (s ++ t) = (String.length s + String.length t)%nat.
Proof. induction s; cbn [append String.length Nat.add]; auto. Qed.

Lemma fraction_ok_whole (f : nat) (t : string) :
  all_digits t = true -> String.length t = f ->
  fraction_ok f (substring 0 f t) = true.
Proof.
  revert t. induction f as [|f IH]; intros [|c t] Hd Hl;
    try discriminate; [reflexivity|].
  cbn [substring fraction_ok]. cbn [all_digits] in Hd.
  apply andb_prop in Hd. destruct Hd as [Hc Hd]. rewrite Hc.
  apply IH; [exact Hd|]. now injection Hl.
Qed.

Lemma integer_then_fraction_split (f i : nat) (t : string) :
  all_digits t = true -> String.length t = (i + f)%nat ->
  integer_then_fraction f
    (substring 0 i t ++ "." ++ substring i f t) = true.
Proof.
  revert t. induction i as [|i IH]; intros t Hd Hl.
  - replace (substring 0 0 t) with EmptyString by (destruct t; reflexivity).
    cbn. now apply fraction_ok_whole.
  - destruct t as [|c t]; [discriminate|].
    cbn [all_digits] in Hd. apply andb_prop in Hd. destruct Hd as [Hc Hd].
    cbn [substring append integer_then_fraction]. rewrite Hc.
    apply IH; [exact Hd|]. now injection Hl.
Qed.

Lemma unsigned_fixed_split (f i : nat) (t : string) :
  all_digits t = true -> String.length t = (S i + f)%nat ->
  unsigned_fixed f (substring 0 (S i) t ++ "." ++ substring (S i) f t)
  = true.
Proof.
  intros Hd Hl. destruct t as [|c t]; [discriminate|].
  cbn [all_digits] in Hd. apply andb_prop in Hd. destruct Hd as [Hc Hd].
  cbn [substring append unsigned_fixed]. rewrite Hc.
  apply integer_then_fraction_split; [exact Hd|]. now injection Hl.
Qed.

Lemma with_fraction_fixed (f : nat) (m : string) :
  (1 <= f)%nat -> all_digits m = true -> m <> EmptyString ->
  unsigned_fixed f (with_fraction f m) = true.
Proof.
  intros Hf Hd Hm. unfold with_fraction.
  destruct (Nat.eqb f 0) eqn:E; [apply Nat.eqb_eq in E; lia|].
  set (m' := if Nat.leb (String.length m) f
             then (zeros (f + 1 - String.length m) ++ m)%string else m).
  assert (Hd' : all_digits m' = true).
  { unfold m'. destruct (Nat.leb _ _); [|exact Hd].
    now rewrite all_digits_app, all_digits_zeros, Hd. }
  assert (Hl' : (f + 1 <= String.length m')%nat).
  { unfold m'. destruct (Nat.leb (String.length m) f) eqn:El.
    - apply Nat.leb_le in El. rewrite length_app, length_zeros. lia.
    - apply Nat.leb_gt in El. lia. }
  destruct (String.length m' - f)%nat as [|i] eqn:Ei; [lia|].
  apply unsigned_fixed_split; [exact Hd'|lia].
Qed.

End DigitStrings.

Lemma nearest_scaled_rounds (f : nat) (num den : Z) :
  0 < den ->
  - den
  <= 2 * (num * 10 ^ Z.of_nat f - nearest_scaled f num den * den) < den.
Proof.
  intros Hden. unfold nearest_scaled.
  set (a := 2 * num * 10 ^ Z.of_nat f + den).
  assert (Hb : 0 < 2 * den) by lia.
  pose proof (Z.mul_div_le a (2 * den) Hb) as Hlo.
  pose proof (Z.mul_succ_div_gt a (2 * den) Hb) as Hhi.
  unfold a in *. nia.
Qed.

(** Within the digit range toFixed shows the value rounded to [f] places. *)
Lemma toFixed_string_shows_rounded (x : number) (f : nat) :
  (1 <= f)%nat -> fixed_range x = true ->
  shows_rounded f x (toFixed_string x f).
Proof.
  intros Hf Hx. destruct x as [s|s| |s m e]; try discriminate.
  - (* zero *)
    split.
    + unfold is_fixed_decimal. cbn [toFixed_string].
      change "0"%string with (decimal 0).
      now rewrite with_fraction_fixed
        by auto using decimal_all_digits, decimal_nonempty.
    + exists 0. split; [|reflexivity].
      unfold rounds_to. cbn [SFabs to_frac fst snd is_finite]. lia.
  - (* finite *)
    cbn [fixed_range] in Hx. apply Z.ltb_lt in Hx.
    assert (Hden : 0 < 2 ^ Z.max (- e) 0) by (apply Z.pow_pos_nonneg; lia).
    cbn [toFixed_string].
    destruct (10 ^ 21 * 2 ^ Z.max (- e) 0 <=? Z.pos m * 2 ^ Z.max e 0) eqn:E;
      [apply Z.leb_le in E; lia|].
    set (n := nearest_scaled f (Z.pos m * 2 ^ Z.max e 0) (2 ^ Z.max (- e) 0)).
    split.
    + unfold is_fixed_decimal.
      pose proof (with_fraction_fixed f (decimal n) Hf
                    (decimal_all_digits n) (decimal_nonempty n)) as Hw.
      destruct s; cbn [append].
      * rewrite Hw. cbn. apply orb_true_r.
      * now rewrite Hw.
    + exists n. split.
      * unfold rounds_to. cbn [SFabs to_frac fst snd is_finite].
        split; [reflexivity|].
        apply nearest_scaled_rounds. exact Hden.
      * destruct s; reflexivity.
Qed.

(** ** Telling the two kinds of messages apart *)

Lemma high_message_is_high (name t : string) :
  is_high_ratio_message (high_ratio_message name t) = true.
Proof. reflexivity. Qed.

Lemma high_message_is_not_low (name t : string) :
  is_low_budget_message (high_ratio_message name t) = false.
Proof. reflexivity. Qed.

Lemma low_message_is_low (name t : string) :
  is_low_budget_message (low_budget_message name t) = true.
Proof. reflexivity. Qed.

Lemma low_message_is_not_high (name t : string) :
  is_high_ratio_message (low_budget_message name t) = false.
Proof. reflexivity. Qed.

Lemma filter_flat_map {A B : Type} (p : B -> bool) (g : A -> list B)
  (l : list A) :
  filter p (flat_map g l) = flat_map (fun a => filter p (g a)) l.
Proof.
  induction l as [|a l IH]; cbn [flat_map]; [reflexivity|].
  now rewrite filter_app, IH.
Qed.

Lemma flat_map_guarded {A B : Type} (c : A -> bool) (h : A -> B)
  (g : A -> list B) (l : list A) :
  (forall a, g a = if c a then [h a] else []) ->
  flat_map g l = map h (filter c l).
Proof.
  intros Hg. induction l as [|a l IH]; cbn [flat_map filter]; [reflexivity|].
  rewrite Hg, IH. destruct (c a); reflexivity.
Qed.

Lemma high_ratio_rule_guarded (dept : Department) :
  Spec.high_ratio_rule dept
  = if gt (of_undefined (Student_Faculty_Ratio dept)) (of_Z 30)
    then [high_ratio_message (Department_name dept)
            (toFixed_string (of_undefined (Student_Faculty_Ratio dept)) 1)]
    else [].
Proof.
  unfold Spec.high_ratio_rule.
  destruct (Student_Faculty_Ratio dept) as [r|]; [reflexivity|].
  now rewrite gt_undefined.
Qed.

Lemma low_budget_rule_guarded (avg : number) (dept : Department) :
  Spec.low_budget_rule avg dept
  = if lt (of_undefined (Budget_per_Student dept)) (mul avg lit_0_8)
    then [low_budget_message (Department_name dept)
            (toFixed_string (of_undefined (Budget_per_Student dept)) 2)]
    else [].
Proof.
  unfold Spec.low_budget_rule.
  destruct (Budget_per_Student dept) as [b|]; reflexivity.
Qed.

Lemma filter_high_rules (avg : number) (dept : Department) :
  filter is_high_ratio_message
    (Spec.high_ratio_rule dept ++ Spec.low_budget_rule avg dept)
  = Spec.high_ratio_rule dept.
Proof.
  rewrite filter_app, high_ratio_rule_guarded, low_budget_rule_guarded.
  destruct (gt _ _); destruct (lt _ _); cbn [filter];
    rewrite ?high_message_is_high, ?low_message_is_not_high; reflexivity.
Qed.

Lemma filter_low_rules (avg : number) (dept : Department) :
  filter is_low_budget_message
    (Spec.high_ratio_rule dept ++ Spec.low_budget_rule avg dept)
  = Spec.low_budget_rule avg dept.
Proof.
  rewrite filter_app, high_ratio_rule_guarded, low_budget_rule_guarded.
  destruct (gt _ _); destruct (lt _ _); cbn [filter];
    rewrite ?low_message_is_low, ?high_message_is_not_low; reflexivity.
Qed.

Lemma high_messages_of (departments : list Department) :
  filter is_high_ratio_message (Spec.recommendations departments)
  = map (fun dept =>
           high_ratio_message (Department_name dept)
             (toFixed_string (of_undefined (Student_Faculty_Ratio dept)) 1))
        (filter (fun dept =>
                   gt (of_undefined (Student_Faculty_Ratio dept)) (of_Z 30))
                departments).
Proof.
  unfold Spec.recommendations. rewrite filter_flat_map.
  apply flat_map_guarded. intros dept.
  rewrite filter_high_rules. apply high_ratio_rule_guarded.
Qed.

Lemma low_messages_of (departments : list Department) :
  filter is_low_budget_message (Spec.recommendations departments)
  = map (fun dept =>
           low_budget_message (Department_name dept)
             (toFixed_string (of_undefined (Budget_per_Student dept)) 2))
        (filter (fun dept =>
                   lt (of_undefined (Budget_per_Student dept))
                      (mul (avgBudgetPerStudent departments) lit_0_8))
                departments).
Proof.
  unfold Spec.recommendations. rewrite filter_flat_map.
  apply flat_map_guarded with
    (c := fun dept =>
            lt (of_undefined (Budget_per_Student dept))
               (mul (avgBudgetPerStudent departments) lit_0_8)).
  intros dept. rewrite filter_low_rules. apply low_budget_rule_guarded.
Qed.

Lemma append_inv_head (p a b : string) :
  (p ++ a)%string = (p ++ b)%string -> a = b.
Proof.
  induction p as [|c p IH]; cbn [append]; intros H; [exact H|].
  injection H as H. now apply IH.
Qed.

(** C3 (amended): a record gets a high-ratio warning exactly when its
    ratio is strictly greater than 30 (none at exactly 30, one at 30.1);
    the warning names the department and shows [ratio.toFixed(1)], which
    is the ratio rounded to one decimal place whenever the ratio is finite
    and below 10^21. *)
Theorem high_ratio_rule_above_30 :
  (forall (departments : list Department) (acc : list string)
          (dept : Department),
      exists low : list string,
        recommend_one departments acc dept
        = Ok (acc
              ++ (if gt (of_undefined (Student_Faculty_Ratio dept)) (of_Z 30)
                  then [high_ratio_message (Department_name dept)
                          (toFixed_string
                             (of_undefined (Student_Faculty_Ratio dept)) 1)]
                  else [])
              ++ low)%list
        /\ filter is_high_ratio_message low = [])
  /\ (forall departments : list Department,
         exists out : list string,
           generateRecommendations departments = Ok out
           /\ filter is_high_ratio_message out
              = map (fun dept =>
                       high_ratio_message (Department_name dept)
                         (toFixed_string
                            (of_undefined (Student_Faculty_Ratio dept)) 1))
                    (filter
                       (fun dept =>
                          gt (of_undefined (Student_Faculty_Ratio dept))
                             (of_Z 30))
                       departments))
  /\ (forall r : number,
         fixed_range r = true -> shows_rounded 1 r (toFixed_string r 1))
  /\ map Student_Faculty_Ratio (analyzeDepartmentData [Example.ratio_30])
     = [Some (of_Z 30)]
  /\ generateRecommendations (analyzeDepartmentData [Example.ratio_30])
     = Ok []
  /\ generateRecommendations (analyzeDepartmentData [Example.ratio_30_1])
     = Ok [high_ratio_message "A" "30.1"].
Proof.
  split; [|split; [|split; [|split; [|split]]]].
  - intros departments acc dept.
    exists (Spec.low_budget_rule (avgBudgetPerStudent departments) dept).
    rewrite recommend_one_rules, high_ratio_rule_guarded. split; [reflexivity|].
    rewrite low_budget_rule_guarded.
    destruct (lt _ _); cbn [filter];
      now rewrite ?low_message_is_not_high.
  - intros departments. exists (Spec.recommendations departments).
    split; [apply generateRecommendations_rules|apply high_messages_of].
  - intros r Hr. apply toFixed_string_shows_rounded; [lia|exact Hr].
  - vm_compute. reflexivity.
  - vm_compute. reflexivity.
  - vm_compute. reflexivity.
Qed.

(** The ratio 450/12 is within the digit range and is shown rounded. *)
Lemma high_ratio_rule_witness :
  fixed_range (div (of_Z 450) (of_Z 12)) = true
  /\ shows_rounded 1 (div (of_Z 450) (of_Z 12))
       (toFixed_string (div (of_Z 450) (of_Z 12)) 1).
Proof.
  split; [reflexivity|].
  apply (proj1 (proj2 (proj2 high_ratio_rule_above_30))). reflexivity.
Defined.

(** C3 as stated fails: a department without faculty has the ratio
    Infinity, gets the warning, and the warning shows [Infinity], which is
    no number rounded to one decimal place. *)
Lemma high_ratio_shows_infinity :
  map Student_Faculty_Ratio (analyzeDepartmentData [Example.no_faculty])
  = [Some Infinity]
  /\ gt Infinity (of_Z 30) = true
  /\ generateRecommendations (analyzeDepartmentData [Example.no_faculty])
     = Ok [high_ratio_message "X" "Infinity"]
  /\ ~ (exists t : string,
           shows_rounded 1 Infinity t
           /\ high_ratio_message "X" t = high_ratio_message "X" "Infinity").
Proof.
  split; [reflexivity|]. split; [reflexivity|].
  split; [vm_compute; reflexivity|].
  intros (t & [Hfix _] & Heq). unfold high_ratio_message in Heq.
  do 3 apply append_inv_head in Heq.
  destruct t as [|c t]; [discriminate Heq|].
  cbn [append] in Heq. injection Heq as Hc _. subst c.
  discriminate Hfix.
Qed.

(** C4 (amended): a record gets a low-budget warning exactly when its
    budget per student is strictly below 0.8 times the mean of
    [Budget / Students] over all records of the call; the warning names
    the department and shows [budgetPerStudent.toFixed(2)], which is the
    value rounded to two decimal places whenever it is finite and below
    10^21 in magnitude. *)
Theorem low_budget_rule_below_80_percent :
  (forall (departments : list Department) (acc : list string)
          (dept : Department),
      exists high : list string,
        recommend_one departments acc dept
        = Ok (acc ++ high
              ++ (if lt (of_undefined (Budget_per_Student dept))
                        (mul (div (fold_left
                                     (fun acc d =>
                                        add acc (div (Budget d) (Students d)))
                                     departments (of_Z 0))
                                  (of_Z (Z.of_nat (List.length departments))))
                             lit_0_8)
                  then [low_budget_message (Department_name dept)
                          (toFixed_string
                             (of_undefined (Budget_per_Student dept)) 2)]
                  else []))%list
        /\ filter is_low_budget_message high = [])
  /\ (forall departments : list Department,
         exists out : list string,
           generateRecommendations departments = Ok out
           /\ filter is_low_budget_message out
              = map (fun dept =>
                       low_budget_message (Department_name dept)
                         (toFixed_string
                            (of_undefined (Budget_per_Student dept)) 2))
                    (filter
                       (fun dept =>
                          lt (of_undefined (Budget_per_Student dept))
                             (mul (avgBudgetPerStudent departments) lit_0_8))
                       departments))
  /\ (forall b : number,
         fixed_range b = true -> shows_rounded 2 b (toFixed_string b 2))
  /\ generateRecommendations (analyzeDepartmentData Example.at_threshold)
     = Ok []
  /\ generateRecommendations (analyzeDepartmentData Example.below_threshold)
     = Ok [low_budget_message "C" "7.00"].
Proof.
  split; [|split; [|split; [|split]]].
  - intros departments acc dept.
    exists (Spec.high_ratio_rule dept).
    rewrite recommend_one_rules, low_budget_rule_guarded. split; [reflexivity|].
    rewrite high_ratio_rule_guarded.
    destruct (gt _ _); cbn [filter];
      now rewrite ?high_message_is_not_low.
  - intros departments. exists (Spec.recommendations departments).
    split; [apply generateRecommendations_rules|apply low_messages_of].
  - intros b Hb. apply toFixed_string_shows_rounded; [lia|exact Hb].
  - vm_compute. reflexivity.
  - vm_compute. reflexivity.
Qed.

(** The quotient 2000000/450 is within the digit range and is shown
    rounded. *)
Lemma low_budget_rule_witness :
  fixed_range (div (of_Z 2000000) (of_Z 450)) = true
  /\ shows_rounded 2 (div (of_Z 2000000) (of_Z 450))
       (toFixed_string (div (of_Z 2000000) (of_Z 450)) 2).
Proof.
  split; [reflexivity|].
  apply (proj1 (proj2 (proj2 low_budget_rule_below_80_percent))). reflexivity.
Defined.

(** C4 as stated fails: with budgets per student of 10^21 and 10^30 the
    first record is below 80% of the mean and its warning shows [1e+21],
    which has no two decimal places. *)
Lemma low_budget_shows_exponent :
  map Budget_per_Student (analyzeDepartmentData Example.huge_budgets)
  = [Some (of_Z (10 ^ 21)); Some (of_Z (10 ^ 30))]
  /\ generateRecommendations (analyzeDepartmentData Example.huge_budgets)
     = Ok [low_budget_message "A" "1e+21"]
  /\ ~ (exists t : string,
           shows_rounded 2 (of_Z (10 ^ 21)) t
           /\ low_budget_message "A" t = low_budget_message "A" "1e+21").
Proof.
  split; [vm_compute; reflexivity|].
  split; [vm_compute; reflexivity|].
  intros (t & [Hfix _] & Heq). unfold low_budget_message in Heq.
  do 3 apply append_inv_head in Heq.
  destruct t as [|c t]; [discriminate Heq|].
  cbn [append] in Heq. injection Heq as Hc Heq. subst c.
  destruct t as [|c t]; [discriminate Heq|].
  cbn [append] in Heq. injection Heq as Hc _. subst c.
  discriminate Hfix.
Qed.

(** ** The recommendation engine *)

(** C5: the recommendations follow the input order of the departments;
    for one department the high-ratio message (if any) comes immediately
    before the low-budget message (if any); both rules may fire for one
    record, and nothing is suppressed or deduplicated. *)
Theorem recommendations_in_input_order :
  (forall departments : list Department,
      generateRecommendations departments
      = Ok (flat_map
              (fun dept =>
                 (Spec.high_ratio_rule dept
                  ++ Spec.low_budget_rule
                       (avgBudgetPerStudent departments) dept)%list)
              departments))
  /\ generateRecommendations (analyzeDepartmentData sampleData)
     = Ok [ high_ratio_message "Computer Science" "37.5";
            high_ratio_message "Biology" "31.8";
            high_ratio_message "Engineering" "33.3";
            high_ratio_message "Psychology" "40.0";
            low_budget_message "Psychology" "4000.00";
            high_ratio_message "Economics" "38.9";
            low_budget_message "Economics" "4000.00" ]
  /\ generateRecommendations
       (analyzeDepartmentData [Example.psychology; Example.psychology])
     = Ok [ high_ratio_message "Psychology" "40.0";
            high_ratio_message "Psychology" "40.0" ].
Proof.
  split; [|split].
  - intros departments. apply generateRecommendations_rules.
  - vm_compute. reflexivity.
  - vm_compute. reflexivity.
Qed.

(** C6: on the empty sequence [generateRecommendations] returns the empty
    sequence without an error: the callback holding the average is not
    run at all (whatever it is, even one that always throws), and the
    average of the empty dataset is itself a value, NaN, not an error. *)
Theorem generateRecommendations_empty :
  generateRecommendations [] = Ok []
  /\ (forall callback : list string -> Department -> result (list string),
         forEach callback [] [] = Ok [])
  /\ avgBudgetPerStudent [] = NaN.
Proof.
  split; [reflexivity|]. split; [reflexivity|].
  vm_compute. reflexivity.
Qed.

Lemma recommend_one_hoisted_eq (departments : list Department)
  (acc : list string) (dept : Department) :
  recommend_one departments acc dept
  = Spec.recommend_one_hoisted (avgBudgetPerStudent departments) acc dept.
Proof. reflexivity. Qed.

Lemma forEach_ext {S A : Type} (f g : S -> A -> result S) :
  (forall s a, f s a = g s a) ->
  forall (l : list A) (s : S), forEach f l s = forEach g l s.
Proof.
  intros Hfg l. induction l as [|a l IH]; intros s; cbn [forEach].
  - reflexivity.
  - rewrite Hfg. destruct (g s a) as [s'|e]; cbn [bind]; [apply IH|reflexivity].
Qed.

(** C9: recomputing the average for every record gives the same output
    as computing it once per call. *)
Theorem generateRecommendations_hoisted_eq (departments : list Department) :
  generateRecommendations departments
  = Spec.generateRecommendations_hoisted departments.
Proof.
  unfold generateRecommendations, Spec.generateRecommendations_hoisted.
  apply forEach_ext. intros acc dept. apply recommend_one_hoisted_eq.
Qed.

(** ** The insight requestor *)

Lemma requestInsight_steps (fetch : AggregateSummary -> result Response)
  (data : list Department) :
  requestInsight fetch data
  = (response <- fetch (Insight.summary_of data) ;;
     body <- json response ;;
     Insight.content_of body).
Proof. reflexivity. Qed.

Lemma getAiInsights_state (fetch : AggregateSummary -> result Response)
  (st : AppState) :
  getAiInsights fetch st
  = mkState (data st)
      (try_catch (requestInsight fetch (data st))
                 (fun _ => VString fallback_message))
      false.
Proof.
  unfold getAiInsights, setLoading, setAiInsight. cbn [data aiInsight loading].
  destruct (requestInsight fetch (data st)); reflexivity.
Qed.

(** C8 (amended): [getAiInsights] always returns, with the busy flag
    cleared and the dataset untouched.  It shows the fallback string when
    [fetch] rejects, when [response.json()] rejects, and when
    [choices[0].message.content] cannot be read (for instance when
    [choices] is missing); otherwise it shows the content of the first
    choice unmodified.  The status of the response plays no part. *)
Theorem getAiInsights_outcomes
  (fetch : AggregateSummary -> result Response) (st : AppState) :
  (exists shown : value,
      getAiInsights fetch st = mkState (data st) shown false)
  /\ (forall e : exn,
         fetch (Insight.summary_of (data st)) = Throw e ->
         aiInsight (getAiInsights fetch st) = VString fallback_message)
  /\ (forall (response : Response) (e : exn),
         fetch (Insight.summary_of (data st)) = Ok response ->
         json response = Throw e ->
         aiInsight (getAiInsights fetch st) = VString fallback_message)
  /\ (forall (response : Response) (body : value) (e : exn),
         fetch (Insight.summary_of (data st)) = Ok response ->
         json response = Ok body ->
         Insight.content_of body = Throw e ->
         aiInsight (getAiInsights fetch st) = VString fallback_message)
  /\ (forall (response : Response) (body content : value),
         fetch (Insight.summary_of (data st)) = Ok response ->
         json response = Ok body ->
         Insight.content_of body = Ok content ->
         aiInsight (getAiInsights fetch st) = content)
  /\ (forall properties : list (string * value),
         own_property "choices" properties = VUndefined ->
         Insight.content_of (VObject properties) = Throw TypeError)
  /\ (forall (properties first message : list (string * value))
             (others : list value),
         own_property "choices" properties
         = VArray (VObject first :: others) ->
         own_property "message" first = VObject message ->
         Insight.content_of (VObject properties)
         = Ok (own_property "content" message)).
Proof.
  rewrite getAiInsights_state, requestInsight_steps. cbn [aiInsight].
  split; [eexists; reflexivity|].
  split; [intros e ->; reflexivity|].
  split; [intros response e -> Hj; cbn [bind]; rewrite Hj; reflexivity|].
  split; [intros response body e -> Hj Hc; cbn [bind]; rewrite Hj; cbn [bind];
          rewrite Hc; reflexivity|].
  split; [intros response body content -> Hj Hc; cbn [bind]; rewrite Hj;
          cbn [bind]; rewrite Hc; reflexivity|].
  split.
  - intros properties Hc. unfold Insight.content_of. cbn [get bind].
    rewrite Hc. reflexivity.
  - intros properties first message others Hc Hm.
    unfold Insight.content_of. cbn [get bind]. rewrite Hc.
    cbn [get_0 bind get]. rewrite Hm. reflexivity.
Qed.

(** A completion with status 200, a rejected fetch, a body that is not
    JSON, and an error payload with status 401. *)
Lemma getAiInsights_outcomes_witness :
  aiInsight
    (getAiInsights
       (fun _ => Ok (mkResponse 200 (Ok (Insight.completion (VString "Hire.")))))
       Insight.idle)
  = VString "Hire."
  /\ aiInsight (getAiInsights (fun _ => Throw TypeError) Insight.idle)
     = VString fallback_message
  /\ aiInsight
       (getAiInsights (fun _ => Ok (mkResponse 200 (Throw SyntaxError)))
                      Insight.idle)
     = VString fallback_message
  /\ aiInsight
       (getAiInsights
          (fun _ => Ok (mkResponse 401 (Ok (VObject [("error", VNull)]))))
          Insight.idle)
     = VString fallback_message.
Proof.
  split; [|split; [|split]].
  - exact (proj1 (proj2 (proj2 (proj2 (proj2
      (getAiInsights_outcomes _ Insight.idle)))))
             (mkResponse 200 (Ok (Insight.completion (VString "Hire."))))
             (Insight.completion (VString "Hire.")) (VString "Hire.")
             eq_refl eq_refl eq_refl).
  - exact (proj1 (proj2 (getAiInsights_outcomes _ Insight.idle))
             TypeError eq_refl).
  - exact (proj1 (proj2 (proj2 (getAiInsights_outcomes _ Insight.idle)))
             (mkResponse 200 (Throw SyntaxError)) SyntaxError
             eq_refl eq_refl).
  - exact (proj1 (proj2 (proj2 (proj2
      (getAiInsights_outcomes _ Insight.idle))))
             (mkResponse 401 (Ok (VObject [("error", VNull)])))
             (VObject [("error", VNull)]) TypeError
             eq_refl eq_refl eq_refl).
Defined.

(** C8 as stated fails: a response with status 500 whose body carries a
    completion is shown, not replaced by the fallback string; and a
    payload whose first message has no content shows [undefined]. *)
Lemma getAiInsights_ignores_status :
  Insight.is_2xx 500 = false
  /\ aiInsight
       (getAiInsights
          (fun _ => Ok (mkResponse 500
                          (Ok (Insight.completion (VString "Hire.")))))
          Insight.idle)
     = VString "Hire."
  /\ VString "Hire." <> VString fallback_message
  /\ aiInsight
       (getAiInsights
          (fun _ => Ok (mkResponse 200 (Ok Insight.no_content)))
          Insight.idle)
     = VUndefined
  /\ VUndefined <> VString fallback_message.
Proof.
  split; [reflexivity|]. split; [reflexivity|].
  split; [discriminate|]. split; [reflexivity|discriminate].
Qed.

(** * Further properties *)

(** ** Derivation followed by recommendation *)

Lemma flat_map_map {A B C : Type} (g : A -> B) (h : B -> list C)
  (l : list A) :
  flat_map h (map g l) = flat_map (fun a => h (g a)) l.
Proof.
  induction l as [|a l IH]; cbn [map flat_map]; [reflexivity|].
  now rewrite IH.
Qed.

Lemma fold_left_map {A B C : Type} (g : A -> B) (h : C -> B -> C)
  (l : list A) (c : C) :
  fold_left h (map g l) c = fold_left (fun acc a => h acc (g a)) l c.
Proof.
  revert c. induction l as [|a l IH]; intros c; cbn [map fold_left];
    [reflexivity|apply IH].
Qed.

Lemma avgBudgetPerStudent_base (a b : list Department) :
  map Spec.base_fields a = map Spec.base_fields b ->
  avgBudgetPerStudent a = avgBudgetPerStudent b.
Proof.
  intros H. unfold avgBudgetPerStudent, reduce, length_number.
  assert (Hlen : List.length a = List.length b).
  { rewrite <- (length_map Spec.base_fields a), H. apply length_map. }
  rewrite Hlen. f_equal.
  transitivity
    (fold_left (fun acc (t : string * number * number * number) =>
                  add acc (div (snd t) (snd (fst (fst t)))))
               (map Spec.base_fields a) (of_Z 0)).
  - now rewrite fold_left_map.
  - rewrite H. now rewrite fold_left_map.
Qed.

Lemma avgBudgetPerStudent_analyzed (departments : list Department) :
  avgBudgetPerStudent (analyzeDepartmentData departments)
  = avgBudgetPerStudent departments.
Proof.
  apply avgBudgetPerStudent_base.
  unfold analyzeDepartmentData. rewrite map_map. now apply map_ext.
Qed.

Lemma recommendations_analyzed_eq (departments : list Department) :
  generateRecommendations (analyzeDepartmentData departments)
  = Ok (flat_map
          (fun dept =>
             ((if gt (div (Students dept) (Faculty dept)) (of_Z 30)
               then [high_ratio_message (Department_name dept)
                       (toFixed_string
                          (div (Students dept) (Faculty dept)) 1)]
               else [])
              ++
              (if lt (div (Budget dept) (Students dept))
                     (mul (avgBudgetPerStudent departments) lit_0_8)
               then [low_budget_message (Department_name dept)
                       (toFixed_string
                          (div (Budget dept) (Students dept)) 2)]
               else []))%list)
          departments).
Proof.
  rewrite generateRecommendations_rules. unfold Spec.recommendations.
  rewrite avgBudgetPerStudent_analyzed.
  unfold analyzeDepartmentData. rewrite flat_map_map. reflexivity.
Qed.

(** X1: what the page shows for an uploaded dataset, in terms of the
    uploaded properties only: after the derivation, a department gets the
    high-ratio warning exactly when [Students / Faculty > 30] and the
    low-budget warning exactly when [Budget / Students] is below 0.8 times
    the mean of these quotients. *)
Theorem recommendations_of_analyzed (departments : list Department) :
  generateRecommendations (analyzeDepartmentData departments)
  = Ok (flat_map
          (fun dept =>
             ((if gt (div (Students dept) (Faculty dept)) (of_Z 30)
               then [high_ratio_message (Department_name dept)
                       (toFixed_string
                          (div (Students dept) (Faculty dept)) 1)]
               else [])
              ++
              (if lt (div (Budget dept) (Students dept))
                     (mul (div (fold_left
                                  (fun acc d =>
                                     add acc (div (Budget d) (Students d)))
                                  departments (of_Z 0))
                               (of_Z (Z.of_nat (List.length departments))))
                          lit_0_8)
               then [low_budget_message (Department_name dept)
                       (toFixed_string
                          (div (Budget dept) (Students dept)) 2)]
               else []))%list)
          departments).
Proof. apply recommendations_analyzed_eq. Qed.

(** X2: the derivation reads only the four base properties: two arrays
    that agree on them have the same derivation, whatever derived values
    they carried before. *)
Theorem analyzeDepartmentData_base_only (a b : list Department) :
  map Spec.base_fields a = map Spec.base_fields b ->
  analyzeDepartmentData a = analyzeDepartmentData b.
Proof.
  revert b. induction a as [|x a IH]; intros [|y b] H; try discriminate;
    [reflexivity|].
  cbn [map] in H. injection H as Hn Hs Hf Hb Hab.
  unfold analyzeDepartmentData. cbn [map]. f_equal; [|now apply IH].
  unfold with_derived. now rewrite Hn, Hs, Hf, Hb.
Qed.

Lemma analyzeDepartmentData_base_only_witness :
  analyzeDepartmentData
    [mkDepartment "A" (of_Z 300) (of_Z 10) (of_Z 900) (Some NaN) None]
  = analyzeDepartmentData [sample "A" 300 10 900].
Proof.
  apply analyzeDepartmentData_base_only. reflexivity.
Defined.

(** X3: records without derived properties (an array that was not passed
    through the derivation) get no recommendation, and reading the absent
    properties raises no error. *)
Theorem generateRecommendations_underived (departments : list Department) :
  Forall (fun dept =>
            Student_Faculty_Ratio dept = None
            /\ Budget_per_Student dept = None) departments ->
  generateRecommendations departments = Ok [].
Proof.
  intros H. rewrite generateRecommendations_rules.
  unfold Spec.recommendations. f_equal.
  generalize (avgBudgetPerStudent departments) as avg. intros avg.
  induction H as [|dept l [Hr Hb] _ IH]; cbn [flat_map]; [reflexivity|].
  rewrite IH. unfold Spec.high_ratio_rule, Spec.low_budget_rule.
  now rewrite Hr, Hb.
Qed.

Lemma generateRecommendations_underived_witness :
  generateRecommendations sampleData = Ok [].
Proof.
  apply generateRecommendations_underived.
  unfold sampleData, sample. repeat constructor.
Defined.

Lemma rules_bounded (avg : number) (dept : Department) :
  let added :=
    (Spec.high_ratio_rule dept ++ Spec.low_budget_rule avg dept)%list in
  (List.length added <= 2)%nat
  /\ (List.length (filter is_high_ratio_message added) <= 1)%nat
  /\ (List.length (filter is_low_budget_message added) <= 1)%nat
  /\ Forall (fun message =>
               xorb (is_high_ratio_message message)
                    (is_low_budget_message message) = true)
            added.
Proof.
  cbv zeta. rewrite high_ratio_rule_guarded, low_budget_rule_guarded.
  destruct (gt _ _); destruct (lt _ _); cbn [app filter].
  - rewrite high_message_is_high, low_message_is_not_high,
      high_message_is_not_low, low_message_is_low.
    cbn [List.length]. split; [lia|]. split; [lia|]. split; [lia|].
    constructor; [|constructor; [|constructor]].
    + now rewrite high_message_is_high, high_message_is_not_low.
    + now rewrite low_message_is_not_high, low_message_is_low.
  - rewrite high_message_is_high, high_message_is_not_low.
    cbn [List.length]. split; [lia|]. split; [lia|]. split; [lia|].
    constructor; [|constructor].
    now rewrite high_message_is_high, high_message_is_not_low.
  - rewrite low_message_is_not_high, low_message_is_low.
    cbn [List.length]. split; [lia|]. split; [lia|]. split; [lia|].
    constructor; [|constructor].
    now rewrite low_message_is_not_high, low_message_is_low.
  - cbn [List.length]. split; [lia|]. split; [lia|]. split; [lia|].
    constructor.
Qed.

Lemma callback_per_record (departments l : list Department) :
  Forall2
    (fun dept added =>
       recommend_one departments [] dept = Ok added
       /\ (List.length added <= 2)%nat
       /\ (List.length (filter is_high_ratio_message added) <= 1)%nat
       /\ (List.length (filter is_low_budget_message added) <= 1)%nat
       /\ Forall (fun message =>
                    xorb (is_high_ratio_message message)
                         (is_low_budget_message message) = true)
                 added)
    l
    (map (fun dept =>
            (Spec.high_ratio_rule dept
             ++ Spec.low_budget_rule
                  (avgBudgetPerStudent departments) dept)%list)
         l).
Proof.
  induction l as [|dept l IH]; cbn [map]; constructor; [|exact IH].
  split; [now rewrite recommend_one_rules|].
  apply rules_bounded.
Qed.

(** X4: the output is the concatenation, in input order, of what the
    callback pushes for each record; for one record the callback pushes at
    most two messages, at most one of each kind, and every message is of
    exactly one of the two kinds. *)
Theorem recommendations_bounded (departments : list Department) :
  exists per_record : list (list string),
    generateRecommendations departments = Ok (List.concat per_record)
    /\ Forall2
         (fun dept added =>
            recommend_one departments [] dept = Ok added
            /\ (List.length added <= 2)%nat
            /\ (List.length (filter is_high_ratio_message added) <= 1)%nat
            /\ (List.length (filter is_low_budget_message added) <= 1)%nat
            /\ Forall (fun message =>
                         xorb (is_high_ratio_message message)
                              (is_low_budget_message message) = true)
                      added)
         departments per_record.
Proof.
  exists (map (fun dept =>
                 (Spec.high_ratio_rule dept
                  ++ Spec.low_budget_rule
                       (avgBudgetPerStudent departments) dept)%list)
              departments).
  split.
  - rewrite generateRecommendations_rules. unfold Spec.recommendations.
    now rewrite flat_map_concat_map.
  - apply callback_per_record.
Qed.

(** ** One record among the others *)

(** X5: the high-ratio warnings of a record do not depend on the other
    records: those of a concatenation are those of its parts.  The
    low-budget warnings do depend on them: two arrays without any
    warning can have one when put together. *)
Theorem high_ratio_local_low_budget_global :
  (forall a b : list Department,
      exists out out_a out_b : list string,
        generateRecommendations (a ++ b) = Ok out
        /\ generateRecommendations a = Ok out_a
        /\ generateRecommendations b = Ok out_b
        /\ filter is_high_ratio_message out
           = (filter is_high_ratio_message out_a
              ++ filter is_high_ratio_message out_b)%list)
  /\ generateRecommendations
       (analyzeDepartmentData [sample "A" 1 1 11; sample "B" 1 1 11])
     = Ok []
  /\ generateRecommendations (analyzeDepartmentData [sample "C" 1 1 7])
     = Ok []
  /\ generateRecommendations
       (analyzeDepartmentData [sample "A" 1 1 11; sample "B" 1 1 11]
        ++ analyzeDepartmentData [sample "C" 1 1 7])
     = Ok [low_budget_message "C" "7.00"].
Proof.
  split; [|repeat split; vm_compute; reflexivity].
  intros a b.
  exists (Spec.recommendations (a ++ b)), (Spec.recommendations a),
         (Spec.recommendations b).
  rewrite !generateRecommendations_rules, !high_messages_of.
  repeat split. now rewrite filter_app, map_app.
Qed.

(** ** Not-a-number in the average *)

Lemma add_nan_r (x : number) : add x NaN = NaN.
Proof. destruct x; reflexivity. Qed.

Lemma lt_nan_r (x : number) : lt x NaN = false.
Proof. destruct x; reflexivity. Qed.

Lemma is_nan_eq (x : number) : is_nan x = true -> x = NaN.
Proof. destruct x; try discriminate; reflexivity. Qed.

Lemma sum_from_nan (l : list Department) :
  fold_left (fun acc d => add acc (div (Budget d) (Students d))) l NaN = NaN.
Proof. induction l as [|d l IH]; cbn [fold_left]; [reflexivity|exact IH]. Qed.

Lemma sum_with_nan (l : list Department) (dept : Department) (acc : number) :
  In dept l -> is_nan (budget_term dept) = true ->
  fold_left (fun acc d => add acc (div (Budget d) (Students d))) l acc = NaN.
Proof.
  intros Hin Hnan. revert acc.
  induction l as [|d l IH]; intros acc; [contradiction|].
  cbn [fold_left]. destruct Hin as [->|Hin]; [|now apply IH].
  apply is_nan_eq in Hnan. unfold budget_term in Hnan.
  rewrite Hnan, add_nan_r. apply sum_from_nan.
Qed.

(** X6: one record whose [Budget / Students] is NaN (for instance no
    budget and no students) makes the average NaN, and then no record of
    the call gets a low-budget warning. *)
Theorem nan_budget_silences_low_budget_rule
  (departments : list Department) (dept : Department) :
  In dept departments ->
  is_nan (div (Budget dept) (Students dept)) = true ->
  avgBudgetPerStudent departments = NaN
  /\ exists out : list string,
       generateRecommendations departments = Ok out
       /\ filter is_low_budget_message out = [].
Proof.
  intros Hin Hnan.
  assert (Havg : avgBudgetPerStudent departments = NaN).
  { unfold avgBudgetPerStudent, reduce.
    now rewrite (sum_with_nan departments dept). }
  split; [exact Havg|].
  exists (Spec.recommendations departments).
  split; [apply generateRecommendations_rules|].
  rewrite low_messages_of, Havg.
  change (mul NaN lit_0_8) with NaN.
  replace (filter (fun d => lt (of_undefined (Budget_per_Student d)) NaN)
                  departments) with (@nil Department); [reflexivity|].
  clear. induction departments as [|d l IH]; [reflexivity|].
  cbn [filter]. now rewrite lt_nan_r.
Qed.

Lemma nan_budget_silences_witness :
  avgBudgetPerStudent
    (analyzeDepartmentData
       [sample "A" 1 1 11; sample "B" 1 1 11; sample "C" 1 1 7;
        sample "D" 0 1 0])
  = NaN
  /\ exists out : list string,
       generateRecommendations
         (analyzeDepartmentData
            [sample "A" 1 1 11; sample "B" 1 1 11; sample "C" 1 1 7;
             sample "D" 0 1 0])
       = Ok out
       /\ filter is_low_budget_message out = [].
Proof.
  apply (nan_budget_silences_low_budget_rule _
           (with_derived (sample "D" 0 1 0) (of_Z 0) NaN)).
  - vm_compute. auto.
  - reflexivity.
Defined.

(** ** The states of the page *)

Lemma analyzed_derived_ok (departments : list Department) :
  Forall Page.derived_ok (analyzeDepartmentData departments).
Proof.
  unfold analyzeDepartmentData. apply Forall_map.
  induction departments; constructor; [split; reflexivity|assumption].
Qed.

Lemma derived_ok_fixpoint (departments : list Department) :
  Forall Page.derived_ok departments ->
  analyzeDepartmentData departments = departments.
Proof.
  induction 1 as [|dept l [Hr Hb] _ IH]; [reflexivity|].
  unfold analyzeDepartmentData in *. cbn [map]. rewrite IH. f_equal.
  destruct dept. cbn in *. unfold with_derived. cbn. now rewrite Hr, Hb.
Qed.

Lemma perform_derived_ok (st : AppState) (a : Page.action) :
  Forall Page.derived_ok (data st) ->
  Forall Page.derived_ok (data (Page.perform st a)).
Proof.
  intros H. destruct a as [[rows|]| |fetch]; cbn [Page.perform].
  - apply analyzed_derived_ok.
  - exact H.
  - apply analyzed_derived_ok.
  - now rewrite getAiInsights_state.
Qed.

(** X7: whatever the user does (choosing files, loading the sample data,
    asking for insights, in any order), every record the page holds
    carries both derived properties, equal to the quotients of its own
    base properties; so a further derivation would change nothing. *)
Theorem page_data_is_derived (actions : list Page.action) :
  Forall Page.derived_ok (data (Page.after actions))
  /\ analyzeDepartmentData (data (Page.after actions))
     = data (Page.after actions).
Proof.
  assert (H : Forall Page.derived_ok (data (Page.after actions))).
  { unfold Page.after.
    assert (Hinit : Forall Page.derived_ok (data Page.initial))
      by constructor.
    revert Hinit. generalize Page.initial as st.
    induction actions as [|a l IH]; intros st Hst; cbn [fold_left].
    - exact Hst.
    - apply IH. now apply perform_derived_ok. }
  split; [exact H|now apply derived_ok_fixpoint].
Qed.

(** X8: a second insight request replaces the result of the first one:
    what it sends and what it shows depend on the dataset only, not on
    the insight shown before. *)
Theorem getAiInsights_replaces
  (first second : AggregateSummary -> result Response) (st : AppState) :
  getAiInsights second (getAiInsights first st) = getAiInsights second st.
Proof.
  rewrite (getAiInsights_state second (getAiInsights first st)).
  rewrite (getAiInsights_state second st).
  now rewrite (getAiInsights_state first st).
Qed.

(** ** Which payloads are shown *)

Lemma content_of_chain (body : value) :
  Insight.content_of body
  = if (Chain.nullish body
        || Chain.nullish (Chain.peek "choices" body)
        || Chain.nullish (Chain.peek_0 (Chain.peek "choices" body))
        || Chain.nullish (Chain.message_of body))%bool
    then Throw TypeError
    else Ok (Chain.peek "content" (Chain.message_of body)).
Proof.
  unfold Insight.content_of, Chain.message_of, Chain.peek, Chain.peek_0.
  destruct body as [| |b|n|s|els|props];
    cbn [get bind try_catch Chain.nullish orb]; try reflexivity.
  destruct (own_property "choices" props) as [| |b|n|s|[|x xs]|ps];
    cbn [get get_0 bind try_catch Chain.nullish orb]; try reflexivity.
  - destruct s; reflexivity.
  - destruct x as [| |b|n|s|els|xp];
      cbn [get get_0 bind try_catch Chain.nullish orb]; try reflexivity.
    destruct (own_property "message" xp);
      cbn [get bind try_catch Chain.nullish orb]; reflexivity.
  - destruct (own_property "0" ps) as [| |b|n|s|els|xp];
      cbn [get get_0 bind try_catch Chain.nullish orb]; try reflexivity.
    destruct (own_property "message" xp);
      cbn [get bind try_catch Chain.nullish orb]; reflexivity.
Qed.

(** X9: for a response whose body parses, the fallback string is shown
    exactly when the body, its [choices], the first choice or its
    [message] is [null] or [undefined]; in every other case the [content]
    property of that message is shown as it is, be it a string, absent
    ([undefined]) or any other value. *)
Theorem getAiInsights_parsed_body
  (fetch : AggregateSummary -> result Response) (st : AppState)
  (response : Response) (body : value) :
  fetch (Insight.summary_of (data st)) = Ok response ->
  json response = Ok body ->
  aiInsight (getAiInsights fetch st)
  = if (Chain.nullish body
        || Chain.nullish (Chain.peek "choices" body)
        || Chain.nullish (Chain.peek_0 (Chain.peek "choices" body))
        || Chain.nullish (Chain.message_of body))%bool
    then VString fallback_message
    else Chain.peek "content" (Chain.message_of body).
Proof.
  intros Hf Hj.
  rewrite getAiInsights_state, requestInsight_steps. cbn [aiInsight].
  rewrite Hf. cbn [bind]. rewrite Hj. cbn [bind].
  rewrite content_of_chain. now destruct (_ || _)%bool.
Qed.

Lemma getAiInsights_parsed_body_witness :
  aiInsight
    (getAiInsights
       (fun _ => Ok (mkResponse 200 (Ok (VObject [("choices", VArray [])]))))
       Insight.idle)
  = VString fallback_message.
Proof.
  exact (getAiInsights_parsed_body _ Insight.idle
           (mkResponse 200 (Ok (VObject [("choices", VArray [])])))
           (VObject [("choices", VArray [])]) eq_refl eq_refl).
Defined.

(** ** Shapes of rounded numbers *)

Section Rounding.

Lemma iter_pos_invariant {A : Type} (P : A -> Prop) (f : A -> A) :
  (forall x, P x -> P (f x)) ->
  forall (p : positive) (x : A), P x -> P (iter_pos f p x).
Proof.
  intros Hf. induction p as [p IH|p IH|]; intros x Hx; cbn [iter_pos].
  - apply IH, IH, Hf, Hx.
  - apply IH, IH, Hx.
  - apply Hf, Hx.
Qed.

Lemma shr_1_nonneg (mrs : shr_record) :
  0 <= shr_m mrs -> 0 <= shr_m (shr_1 mrs).
Proof.
  destruct mrs as [m r s]. cbn [shr_m]. intros Hm.
  destruct m as [|p|p]; [cbn; lia| |lia].
  destruct p; cbn; lia.
Qed.

Lemma shr_fexp_nonneg (m e : Z) (l : location) :
  0 <= m -> 0 <= shr_m (fst (shr_fexp prec emax m e l)).
Proof.
  intros Hm. unfold shr_fexp, shr.
  assert (H0 : 0 <= shr_m (shr_record_of_loc m l)).
  { destruct l as [|[]]; exact Hm. }
  destruct (fexp prec emax (Zdigits2 m + e) - e) as [|p|p]; cbn [fst];
    try exact H0.
  now apply (iter_pos_invariant (fun x => 0 <= shr_m x)), H0;
    try apply shr_1_nonneg.
Qed.

Lemma round_nearest_even_nonneg (m : Z) (l : location) :
  0 <= m -> 0 <= round_nearest_even m l.
Proof.
  intros Hm. destruct l as [|[]]; cbn [round_nearest_even]; try lia.
  destruct (Z.even m); lia.
Qed.

(** Rounding a non-negative mantissa yields a zero, a finite number or an
    infinity of the given sign, never NaN. *)
Lemma binary_round_aux_shape (sx : bool) (mx ex : Z) (lx : location) :
  0 <= mx ->
  match binary_round_aux prec emax sx mx ex lx with
  | S754_zero s | S754_infinity s | S754_finite s _ _ => s = sx
  | S754_nan => False
  end.
Proof.
  intros Hm. unfold binary_round_aux.
  pose proof (shr_fexp_nonneg mx ex lx Hm) as H1.
  destruct (shr_fexp prec emax mx ex lx) as [mrs' e']. cbn [fst] in H1.
  pose proof (shr_fexp_nonneg _ e' loc_Exact
                (round_nearest_even_nonneg _ (loc_of_shr_record mrs') H1))
    as H2.
  destruct (shr_fexp prec emax _ e' loc_Exact) as [mrs'' e''].
  cbn [fst] in H2.
  destruct (shr_m mrs'') as [|p|p]; [reflexivity| |lia].
  destruct (e'' <=? emax - prec); reflexivity.
Qed.

Lemma binary_round_nonneg (m : positive) (e : Z) :
  nonneg (binary_round prec emax false m e) = true.
Proof.
  unfold binary_round.
  destruct (shl_align m e _) as [mz ez].
  pose proof (binary_round_aux_shape false (Z.pos mz) ez loc_Exact
                ltac:(lia)) as H.
  destruct (binary_round_aux prec emax false (Z.pos mz) ez loc_Exact);
    try contradiction; subst; reflexivity.
Qed.

(** The sum of two non-negative numbers is non-negative. *)
Lemma add_nonneg (x y : number) :
  nonneg x = true -> nonneg y = true -> nonneg (add x y) = true.
Proof.
  destruct x as [[]|[]| |[] mx ex]; try discriminate;
    destruct y as [[]|[]| |[] my ey]; try discriminate;
    intros _ _; try reflexivity.
  unfold add, SFadd. cbn [cond_Zopp].
  cbn [Z.add binary_normalize]. apply binary_round_nonneg.
Qed.

Lemma add_infinity_l (y : number) :
  nonneg y = true -> add Infinity y = Infinity.
Proof. destruct y as [[]|[]| |[] my ey]; try discriminate; reflexivity. Qed.

Lemma add_infinity_r (x : number) :
  nonneg x = true -> add x Infinity = Infinity.
Proof. destruct x as [[]|[]| |[] mx ex]; try discriminate; reflexivity. Qed.

Lemma digits2_pos_shift (m d : positive) :
  digits2_pos (Pos.iter xO m d) = (digits2_pos m + d)%positive.
Proof.
  induction d as [|d IH] using Pos.peano_ind.
  - cbn. now rewrite Pos.add_1_r.
  - rewrite Pos.iter_succ. cbn [digits2_pos]. rewrite IH.
    now rewrite Pos.add_succ_r.
Qed.

Lemma digits2_pos_lower (m : positive) :
  2 ^ (Z.pos (digits2_pos m) - 1) <= Z.pos m.
Proof.
  induction m as [m IH|m IH|]; cbn [digits2_pos]; [| |cbn; lia].
  - rewrite Pos2Z.inj_succ.
    replace (Z.succ (Z.pos (digits2_pos m)) - 1)
      with (Z.succ (Z.pos (digits2_pos m) - 1)) by lia.
    rewrite Z.pow_succ_r by lia. lia.
  - rewrite Pos2Z.inj_succ.
    replace (Z.succ (Z.pos (digits2_pos m)) - 1)
      with (Z.succ (Z.pos (digits2_pos m) - 1)) by lia.
    rewrite Z.pow_succ_r by lia. lia.
Qed.

Lemma digits2_pos_small (m : positive) :
  Z.pos m < 2 ^ 53 -> Z.pos (digits2_pos m) <= 53.
Proof.
  intros Hm. pose proof (digits2_pos_lower m) as Hl.
  destruct (Z_le_gt_dec (Z.pos (digits2_pos m)) 53) as [|Hgt]; [assumption|].
  assert (2 ^ 53 <= 2 ^ (Z.pos (digits2_pos m) - 1))
    by (apply Z.pow_le_mono_r; lia).
  lia.
Qed.

(** A full mantissa with an exponent in range is left as it is. *)
Lemma binary_round_aux_full (sx : bool) (mz : positive) (ez : Z) :
  Z.pos (digits2_pos mz) = 53 -> -1074 <= ez <= 971 ->
  binary_round_aux prec emax sx (Z.pos mz) ez loc_Exact
  = S754_finite sx mz ez.
Proof.
  intros Hd He.
  assert (Hshift : forall l,
             shr_fexp prec emax (Z.pos mz) ez l
             = (shr_record_of_loc (Z.pos mz) l, ez)).
  { intros l. unfold shr_fexp. cbn [Zdigits2]. rewrite Hd.
    unfold fexp, emin, prec, emax.
    replace (Z.max (53 + ez - 53) (3 - 1024 - 53) - ez) with 0 by lia.
    reflexivity. }
  unfold binary_round_aux. rewrite Hshift.
  cbn [shr_record_of_loc shr_m loc_of_shr_record round_nearest_even].
  rewrite Hshift. cbn [shr_record_of_loc shr_m].
  unfold prec, emax.
  destruct (ez <=? 1024 - 53) eqn:E; [reflexivity|].
  apply Z.leb_gt in E. lia.
Qed.

(** A positive integer below 2^53 is a positive finite Number. *)
Lemma of_Z_small (z : Z) :
  0 < z < 2 ^ 53 -> exists m e, of_Z z = S754_finite false m e.
Proof.
  intros [Hpos Hlt]. destruct z as [|m|m]; try lia.
  pose proof (digits2_pos_small m Hlt) as Hd.
  unfold of_Z, binary_normalize, binary_round.
  unfold fexp at 1. unfold emin, prec, emax.
  replace (Z.max (Z.pos (digits2_pos m) + 0 - 53) (3 - 1024 - 53))
    with (Z.pos (digits2_pos m) - 53) by lia.
  unfold shl_align.
  destruct (Z.pos (digits2_pos m) - 53 - 0) as [|d|d] eqn:Ed; try lia.
  - eexists _, _. apply (binary_round_aux_full false m 0); lia.
  - eexists _, _.
    apply (binary_round_aux_full false (Pos.iter xO m d)); [|lia].
    rewrite digits2_pos_shift. lia.
Qed.

End Rounding.

(** ** An infinite budget per student *)

Lemma sum_nonneg (l : list Department) (acc : number) :
  Forall (fun d => nonneg (budget_term d) = true) l ->
  nonneg acc = true ->
  nonneg (fold_left (fun acc d => add acc (div (Budget d) (Students d)))
            l acc) = true.
Proof.
  intros H. revert acc.
  induction H as [|d l Hd _ IH]; intros acc Hacc; cbn [fold_left];
    [exact Hacc|].
  apply IH. now apply add_nonneg.
Qed.

Lemma sum_from_infinity (l : list Department) :
  Forall (fun d => nonneg (budget_term d) = true) l ->
  fold_left (fun acc d => add acc (div (Budget d) (Students d))) l Infinity
  = Infinity.
Proof.
  induction 1 as [|d l Hd _ IH]; cbn [fold_left]; [reflexivity|].
  unfold budget_term in Hd. now rewrite (add_infinity_l _ Hd).
Qed.

Lemma sum_with_infinity (l : list Department) (dept : Department)
  (acc : number) :
  Forall (fun d => nonneg (budget_term d) = true) l ->
  nonneg acc = true ->
  In dept l -> budget_term dept = Infinity ->
  fold_left (fun acc d => add acc (div (Budget d) (Students d))) l acc
  = Infinity.
Proof.
  intros H. revert acc.
  induction H as [|d l Hd Hl IH]; intros acc Hacc Hin Hinf;
    [contradiction|].
  cbn [fold_left]. destruct Hin as [->|Hin].
  - unfold budget_term in Hinf. rewrite Hinf.
    rewrite (add_infinity_r _ Hacc). now apply sum_from_infinity.
  - apply IH; [now apply add_nonneg|exact Hin|exact Hinf].
Qed.

Lemma lt_infinity (x : number) :
  nonneg x = true -> lt x Infinity = is_finite x.
Proof. destruct x as [[]|[]| |[] mx ex]; try discriminate; reflexivity. Qed.

Lemma avg_with_infinity (departments : list Department) (dept : Department) :
  Forall (fun d => nonneg (budget_term d) = true) departments ->
  Z.of_nat (List.length departments) < 2 ^ 32 ->
  In dept departments -> budget_term dept = Infinity ->
  avgBudgetPerStudent departments = Infinity.
Proof.
  intros Hall Hlen Hin Hinf. unfold avgBudgetPerStudent, reduce.
  rewrite (sum_with_infinity departments dept) by auto.
  unfold length_number.
  destruct (of_Z_small (Z.of_nat (List.length departments))) as (m & e & ->).
  - split.
    + destruct departments; [contradiction|cbn [List.length]; lia].
    + apply Z.lt_trans with (2 ^ 32); [exact Hlen|reflexivity].
  - reflexivity.
Qed.

(** X10: when the budgets per student of an uploaded dataset are all
    non-negative numbers (none is NaN) and one of them is infinite, as for
    a department with a budget but no students, the average is infinite
    and every department with a finite budget per student gets the
    low-budget warning. *)
Theorem infinite_budget_floods_low_budget_rule
  (departments : list Department) (dept : Department) :
  Forall (fun d => nonneg (div (Budget d) (Students d)) = true)
         departments ->
  Z.of_nat (List.length departments) < 2 ^ 32 ->
  In dept departments ->
  div (Budget dept) (Students dept) = Infinity ->
  avgBudgetPerStudent departments = Infinity
  /\ exists out : list string,
       generateRecommendations (analyzeDepartmentData departments) = Ok out
       /\ filter is_low_budget_message out
          = map (fun d =>
                   low_budget_message (Department_name d)
                     (toFixed_string (div (Budget d) (Students d)) 2))
                (filter (fun d => is_finite (div (Budget d) (Students d)))
                        departments).
Proof.
  intros Hall Hlen Hin Hinf.
  pose proof (avg_with_infinity departments dept Hall Hlen Hin Hinf) as Havg.
  split; [exact Havg|].
  eexists. split; [apply recommendations_analyzed_eq|].
  rewrite Havg. change (mul Infinity lit_0_8) with Infinity.
  clear Hin Hinf Hlen Havg dept.
  induction Hall as [|d l Hd _ IH]; [reflexivity|].
  cbn [flat_map filter]. rewrite !filter_app, IH.
  rewrite (lt_infinity _ Hd).
  destruct (gt _ _); destruct (is_finite _); cbn [filter app map];
    rewrite ?high_message_is_not_low, ?low_message_is_low; reflexivity.
Qed.

Lemma infinite_budget_floods_witness :
  avgBudgetPerStudent
    [sample "A" 1 1 11; sample "B" 1 1 11; sample "C" 0 1 7]
  = Infinity
  /\ exists out : list string,
       generateRecommendations
         (analyzeDepartmentData
            [sample "A" 1 1 11; sample "B" 1 1 11; sample "C" 0 1 7])
       = Ok out
       /\ filter is_low_budget_message out
          = [low_budget_message "A" "11.00"; low_budget_message "B" "11.00"].
Proof.
  apply (infinite_budget_floods_low_budget_rule
           [sample "A" 1 1 11; sample "B" 1 1 11; sample "C" 0 1 7]
           (sample "C" 0 1 7)).
  - repeat constructor.
  - reflexivity.
  - cbn. auto.
  - reflexivity.
Defined.

(** ** Sums of integers *)

Section ExactSums.

Lemma iter_xO_value (m d : positive) :
  Z.pos (Pos.iter xO m d) = Z.pos m * 2 ^ Z.pos d.
Proof.
  induction d as [|d IH] using Pos.peano_ind.
  - cbn [Pos.iter]. rewrite Pos2Z.inj_xO. change (2 ^ 1) with 2. lia.
  - rewrite Pos.iter_succ, Pos2Z.inj_xO, IH, Pos2Z.inj_succ.
    rewrite Z.pow_succ_r by lia. lia.
Qed.

Lemma digits2_pos_upper (m : positive) :
  Z.pos m < 2 ^ Z.pos (digits2_pos m).
Proof.
  induction m as [m IH|m IH|]; cbn [digits2_pos]; [| |cbn; lia];
    rewrite Pos2Z.inj_succ, Z.pow_succ_r by lia; lia.
Qed.

Lemma digits2_pos_mono (a b : positive) :
  Z.pos a <= Z.pos b -> Z.pos (digits2_pos a) <= Z.pos (digits2_pos b).
Proof.
  intros Hab. pose proof (digits2_pos_lower a) as Hl.
  pose proof (digits2_pos_upper b) as Hu.
  destruct (Z_le_gt_dec (Z.pos (digits2_pos a)) (Z.pos (digits2_pos b)))
    as [|Hgt]; [assumption|].
  assert (2 ^ Z.pos (digits2_pos b) <= 2 ^ (Z.pos (digits2_pos a) - 1))
    by (apply Z.pow_le_mono_r; lia).
  lia.
Qed.

Lemma iter_pos_iter {A : Type} (f : A -> A) (p : positive) (x : A) :
  iter_pos f p x = Pos.iter f x p.
Proof.
  revert x. induction p as [p IH|p IH|]; intros x; cbn [iter_pos Pos.iter].
  - rewrite !IH. now rewrite <- !Pos.iter_swap.
  - now rewrite !IH.
  - reflexivity.
Qed.

Lemma shr_1_even (K : Z) :
  0 <= K -> shr_1 (Build_shr_record (2 * K) false false)
            = Build_shr_record K false false.
Proof. intros HK. destruct K as [|k|k]; try lia; reflexivity. Qed.

Lemma shr_exact (n : positive) (K : Z) :
  0 <= K ->
  iter_pos shr_1 n (Build_shr_record (K * 2 ^ Z.pos n) false false)
  = Build_shr_record K false false.
Proof.
  rewrite iter_pos_iter. revert K.
  induction n as [|n IH] using Pos.peano_ind; intros K HK.
  - cbn [Pos.iter]. change (2 ^ 1) with 2.
    replace (K * 2) with (2 * K) by lia. now apply shr_1_even.
  - rewrite Pos.iter_succ, Pos2Z.inj_succ, Z.pow_succ_r by lia.
    replace (K * (2 * 2 ^ Z.pos n)) with (2 * K * 2 ^ Z.pos n) by lia.
    rewrite IH by lia. now apply shr_1_even.
Qed.

(** Rounding a full mantissa followed by [n] zero bits drops the zeros. *)
Lemma binary_round_aux_zeros (K : positive) (n e : Z) :
  Z.pos (digits2_pos K) = 53 -> 0 <= n -> -1074 <= e + n <= 971 ->
  binary_round_aux prec emax false (Z.pos K * 2 ^ n) e loc_Exact
  = S754_finite false K (e + n).
Proof.
  intros Hd Hn He. destruct n as [|n|n]; try lia.
  - rewrite Z.mul_1_r, Z.add_0_r.
    apply binary_round_aux_full; [exact Hd|lia].
  - unfold binary_round_aux.
    assert (Hs : shr_fexp prec emax (Z.pos K * 2 ^ Z.pos n) e loc_Exact
                 = (Build_shr_record (Z.pos K) false false, e + Z.pos n)).
    { unfold shr_fexp. rewrite <- iter_xO_value. cbn [Zdigits2].
      rewrite digits2_pos_shift, Pos2Z.inj_add, Hd.
      unfold fexp, emin, prec, emax.
      replace (Z.max (53 + Z.pos n + e - 53) (3 - 1024 - 53) - e)
        with (Z.pos n) by lia.
      cbn [shr shr_record_of_loc]. rewrite iter_xO_value.
      now rewrite shr_exact by lia. }
    rewrite Hs.
    cbn [shr_m loc_of_shr_record round_nearest_even].
    assert (Hs' : shr_fexp prec emax (Z.pos K) (e + Z.pos n) loc_Exact
                  = (Build_shr_record (Z.pos K) false false, e + Z.pos n)).
    { unfold shr_fexp. cbn [Zdigits2]. rewrite Hd.
      unfold fexp, emin, prec, emax.
      replace (Z.max (53 + (e + Z.pos n) - 53) (3 - 1024 - 53)
               - (e + Z.pos n)) with 0 by lia.
      reflexivity. }
    rewrite Hs'. cbn [shr_m]. unfold prec, emax.
    destruct (e + Z.pos n <=? 1024 - 53) eqn:E; [reflexivity|].
    apply Z.leb_gt in E. lia.
Qed.

Lemma canonical_digits (m : positive) :
  Z.pos m < 2 ^ 53 ->
  Z.pos (digits2_pos
           (Z.to_pos (Z.pos m * 2 ^ (53 - Z.pos (digits2_pos m))))) = 53.
Proof.
  intros Hm. pose proof (digits2_pos_small m Hm) as Hd.
  destruct (53 - Z.pos (digits2_pos m)) as [|d|d] eqn:Ed; try lia.
  - rewrite Z.mul_1_r. cbn [Z.to_pos]. lia.
  - rewrite <- iter_xO_value. cbn [Z.to_pos].
    rewrite digits2_pos_shift. lia.
Qed.

(** An integer below 2^53 is represented exactly. *)
Lemma of_Z_exact (m : positive) :
  Z.pos m < 2 ^ 53 -> of_Z (Z.pos m) = Exact.canonical m.
Proof.
  intros Hm. pose proof (digits2_pos_small m Hm) as Hd.
  pose proof (canonical_digits m Hm) as Hc.
  unfold Exact.canonical, of_Z, binary_normalize, binary_round.
  unfold fexp at 1. unfold emin, prec, emax.
  replace (Z.max (Z.pos (digits2_pos m) + 0 - 53) (3 - 1024 - 53))
    with (Z.pos (digits2_pos m) - 53) by lia.
  unfold shl_align.
  destruct (Z.pos (digits2_pos m) - 53 - 0) as [|d|d] eqn:Ed; try lia.
  - replace (53 - Z.pos (digits2_pos m)) with 0 in * by lia.
    rewrite Z.mul_1_r in *. cbn [Z.to_pos Z.opp] in *.
    apply binary_round_aux_full; [exact Hc|lia].
  - replace (53 - Z.pos (digits2_pos m)) with (Z.pos d) in * by lia.
    rewrite <- iter_xO_value in *. cbn [Z.to_pos] in *.
    replace (Z.pos (digits2_pos m) - 53) with (- Z.pos d) by lia.
    apply binary_round_aux_full; [exact Hc|lia].
Qed.

Lemma shl_align_value (mx : positive) (ex ez : Z) :
  ez <= ex ->
  Z.pos (fst (shl_align mx ex ez)) = Z.pos mx * 2 ^ (ex - ez).
Proof.
  intros He. unfold shl_align.
  destruct (ez - ex) as [|d|d] eqn:Ed; try lia; cbn [fst].
  - replace (ex - ez) with 0 by lia. lia.
  - rewrite iter_xO_value. f_equal. f_equal. lia.
Qed.

End ExactSums.

Lemma add_exact (a b : positive) :
  Z.pos a + Z.pos b < 2 ^ 53 ->
  add (Exact.canonical a) (Exact.canonical b) = Exact.canonical (a + b).
Proof.
  intros Hs.
  assert (Ha : Z.pos a < 2 ^ 53) by lia.
  assert (Hb : Z.pos b < 2 ^ 53) by lia.
  assert (Hab : Z.pos (a + b) < 2 ^ 53) by (rewrite Pos2Z.inj_add; lia).
  pose proof (digits2_pos_small a Ha) as Hda.
  pose proof (digits2_pos_small b Hb) as Hdb.
  pose proof (digits2_pos_small (a + b) Hab) as Hds.
  pose proof (digits2_pos_mono a (a + b) ltac:(lia)) as Hma.
  pose proof (digits2_pos_mono b (a + b) ltac:(lia)) as Hmb.
  pose proof (digits2_pos_lower a) as Hla.
  pose proof (digits2_pos_lower b) as Hlb.
  pose proof (canonical_digits (a + b) Hab) as Hcd.
  unfold Exact.canonical in *.
  set (da := 53 - Z.pos (digits2_pos a)) in *.
  set (db := 53 - Z.pos (digits2_pos b)) in *.
  set (ds := 53 - Z.pos (digits2_pos (a + b))) in *.
  set (Kc := Z.to_pos (Z.pos (a + b) * 2 ^ ds)) in *.
  assert (Hpa : 0 < Z.pos a * 2 ^ da)
    by (apply Z.mul_pos_pos; [lia|apply Z.pow_pos_nonneg; lia]).
  assert (Hpb : 0 < Z.pos b * 2 ^ db)
    by (apply Z.mul_pos_pos; [lia|apply Z.pow_pos_nonneg; lia]).
  assert (Hps : 0 < Z.pos (a + b) * 2 ^ ds)
    by (apply Z.mul_pos_pos; [lia|apply Z.pow_pos_nonneg; lia]).
  (* not both operands can have a full mantissa *)
  assert (Hk : 0 < Z.max da db).
  { destruct (Z.eq_dec da 0) as [E1|]; [|lia].
    destruct (Z.eq_dec db 0) as [E2|]; [|lia].
    exfalso. unfold da, db in E1, E2.
    replace (Z.pos (digits2_pos a) - 1) with 52 in Hla by lia.
    replace (Z.pos (digits2_pos b) - 1) with 52 in Hlb by lia.
    change (2 ^ 53) with (2 ^ 52 + 2 ^ 52) in Hs. lia. }
  unfold add, SFadd. cbn [cond_Zopp].
  replace (Z.min (- da) (- db)) with (- Z.max da db) by lia.
  set (k := Z.max da db) in *.
  rewrite !shl_align_value by lia.
  rewrite !Z2Pos.id by assumption.
  assert (Hsum : Z.pos a * 2 ^ da * 2 ^ (- da - - k)
                 + Z.pos b * 2 ^ db * 2 ^ (- db - - k)
                 = Z.pos Kc * 2 ^ (k - ds)).
  { unfold Kc. rewrite Z2Pos.id by assumption.
    rewrite <- !Z.mul_assoc, <- !Z.pow_add_r by lia.
    replace (da + (- da - - k)) with k by lia.
    replace (db + (- db - - k)) with k by lia.
    replace (ds + (k - ds)) with k by lia.
    rewrite Pos2Z.inj_add. lia. }
  rewrite Hsum.
  destruct (Z.pos Kc * 2 ^ (k - ds)) as [|M|M] eqn:EM;
    try (assert (0 < Z.pos Kc * 2 ^ (k - ds))
           by (apply Z.mul_pos_pos; [lia|apply Z.pow_pos_nonneg; lia]);
         lia).
  cbn [binary_normalize]. unfold binary_round.
  assert (HdM : Z.pos (digits2_pos M) = 53 + (k - ds)).
  { destruct (k - ds) as [|n|n] eqn:En; try lia.
    - rewrite Z.mul_1_r in EM. injection EM as <-. lia.
    - rewrite <- iter_xO_value in EM. injection EM as <-.
      rewrite digits2_pos_shift. lia. }
  rewrite HdM. unfold fexp at 1. unfold emin, prec, emax.
  replace (Z.max (53 + (k - ds) + - k - 53) (3 - 1024 - 53))
    with (- ds) by lia.
  unfold shl_align.
  destruct (- ds - - k) as [|n|n] eqn:En; try lia;
    rewrite <- EM;
    (transitivity (S754_finite false Kc (- k + (k - ds)));
     [apply binary_round_aux_zeros; (assumption || lia)|f_equal; lia]).
Qed.

Lemma of_Z_add (a b : Z) :
  0 <= a -> 0 <= b -> a + b < 2 ^ 53 ->
  add (of_Z a) (of_Z b) = of_Z (a + b).
Proof.
  intros Ha Hb Hs.
  destruct a as [|a|a]; try lia; destruct b as [|b|b]; try lia.
  - reflexivity.
  - cbn [Z.add]. rewrite of_Z_exact by lia. reflexivity.
  - cbn [Z.add]. rewrite of_Z_exact by lia. reflexivity.
  - rewrite !of_Z_exact by lia. cbn [Z.add].
    rewrite of_Z_exact by (rewrite Pos2Z.inj_add; lia).
    now apply add_exact.
Qed.

Lemma fold_add_lower (l : list Z) (acc : Z) :
  Forall (fun n => 0 <= n) l -> acc <= fold_left Z.add l acc.
Proof.
  intros H. revert acc.
  induction H as [|n l Hn _ IH]; intros acc; cbn [fold_left]; [lia|].
  specialize (IH (acc + n)). lia.
Qed.

Lemma fold_of_Z (l : list Z) (acc : Z) :
  0 <= acc -> Forall (fun n => 0 <= n) l ->
  fold_left Z.add l acc < 2 ^ 53 ->
  fold_left add (map of_Z l) (of_Z acc) = of_Z (fold_left Z.add l acc).
Proof.
  intros Hacc H. revert acc Hacc.
  induction H as [|n l Hn Hl IH]; intros acc Hacc Hs; cbn [map fold_left] in *;
    [reflexivity|].
  pose proof (fold_add_lower l (acc + n) Hl) as Hlow.
  rewrite of_Z_add by lia. apply IH; [lia|exact Hs].
Qed.

Lemma total_exact (field : Department -> number) (data : list Department)
  (counts : list Z) :
  map field data = map of_Z counts ->
  Forall (fun n => 0 <= n) counts ->
  Exact.sum_Z counts < 2 ^ 53 ->
  reduce (fun acc dept => add acc (field dept)) (of_Z 0) data
  = of_Z (Exact.sum_Z counts).
Proof.
  intros Hmap Hall Hs. unfold reduce, Exact.sum_Z in *.
  rewrite <- (fold_left_map field add), Hmap.
  apply fold_of_Z; [lia|exact Hall|exact Hs].
Qed.

(** X11: when the student numbers and the budgets are non-negative
    integers whose sums stay below 2^53, the totals the page computes (the
    total of students sent with the insight request and the total budget
    printed into it) are the exact integer sums, without rounding. *)
Theorem integer_totals_exact (data : list Department)
  (students budgets : list Z) :
  map Students data = map of_Z students ->
  map Budget data = map of_Z budgets ->
  Forall (fun n => 0 <= n) students ->
  Forall (fun n => 0 <= n) budgets ->
  Exact.sum_Z students < 2 ^ 53 ->
  Exact.sum_Z budgets < 2 ^ 53 ->
  totalStudents (Insight.summary_of data) = of_Z (Exact.sum_Z students)
  /\ totalBudget (Insight.summary_of data)
     = toFixed_string (of_Z (Exact.sum_Z budgets)) 2.
Proof.
  intros Hs Hb Hps Hpb Hls Hlb.
  unfold Insight.summary_of. cbn [totalStudents totalBudget].
  rewrite (total_exact Students data students) by assumption.
  rewrite (total_exact Budget data budgets) by assumption.
  split; reflexivity.
Qed.

Lemma integer_totals_exact_witness :
  totalStudents (Insight.summary_of (analyzeDepartmentData sampleData))
  = of_Z 2800
  /\ totalBudget (Insight.summary_of (analyzeDepartmentData sampleData))
     = toFixed_string (of_Z 14400000) 2.
Proof.
  apply (integer_totals_exact (analyzeDepartmentData sampleData)
           [450; 300; 200; 250; 350; 500; 400; 350]
           [2000000; 1500000; 1800000; 1700000; 1900000; 2500000;
            1600000; 1400000]).
  - reflexivity.
  - reflexivity.
  - repeat constructor; lia.
  - repeat constructor; lia.
  - reflexivity.
  - reflexivity.
Defined.

(** ** The average ratio of the insight request *)

Lemma or_zero_nonneg (x : option number) :
  countable_ratio x = true -> nonneg (or_zero x) = true.
Proof.
  destruct x as [[[]|[]| |[] m e]|]; try discriminate; reflexivity.
Qed.

Lemma div_nonneg (x : number) (m : positive) (e : Z) :
  nonneg x = true -> nonneg (div x (S754_finite false m e)) = true.
Proof.
  destruct x as [[]|[]| |[] mx ex]; try discriminate; intros _;
    try reflexivity.
  unfold div, SFdiv, SFdiv_core_binary. cbn [xorb].
  set (m' := match _ - _ - _ with Z0 => _ | Zpos _ => _ | Zneg _ => _ end).
  assert (Hm' : 0 <= m').
  { unfold m'. destruct (_ - _ - _); [lia| |lia].
    rewrite Z.shiftl_mul_pow2 by lia.
    apply Z.mul_nonneg_nonneg; [lia|apply Z.pow_nonneg; lia]. }
  pose proof (Z_div_mod m' (Z.pos m) ltac:(lia)) as Hdiv.
  destruct (Z.div_eucl m' (Z.pos m)) as [q r].
  assert (Hq : 0 <= q) by nia.
  pose proof (binary_round_aux_shape false q
                (Z.min (fexp prec emax
                          (Zdigits2 (Z.pos mx) + ex
                           - (Zdigits2 (Z.pos m) + e)))
                       (ex - e))
                (new_location (Z.pos m) r) Hq) as H.
  destruct (binary_round_aux _ _ _ _ _ _); try contradiction; subst;
    reflexivity.
Qed.

Lemma ratio_sum_nonneg (l : list Department) (acc : number) :
  Forall (fun d => countable_ratio (Student_Faculty_Ratio d) = true) l ->
  nonneg acc = true ->
  nonneg (fold_left
            (fun acc dept => add acc (or_zero (Student_Faculty_Ratio dept)))
            l acc) = true.
Proof.
  intros H. revert acc.
  induction H as [|d l Hd _ IH]; intros acc Hacc; cbn [fold_left];
    [exact Hacc|].
  apply IH, add_nonneg; [exact Hacc|now apply or_zero_nonneg].
Qed.

Lemma toString_large_starts_with_digit (x : number) (X : Z) :
  exists (c : ascii) (t : string),
    toString_large x X = String c t /\ is_digit c = true.
Proof.
  unfold toString_large.
  destruct (shortest_digits 17 x X _ 1) as [[s n] k].
  pose proof (decimal_all_digits s) as Hd.
  pose proof (decimal_nonempty s) as Hn.
  destruct (decimal s) as [|c t]; [contradiction|].
  cbn [all_digits] in Hd. apply andb_prop in Hd. destruct Hd as [Hc _].
  destruct (k =? 1); cbn [substring append]; eexists _, _;
    (split; [reflexivity|exact Hc]).
Qed.

Lemma toFixed_string_not_NaN (x : number) :
  nonneg x = true -> toFixed_string x 1 <> "NaN"%string.
Proof.
  intros H. destruct x as [[]|[]| |[] m e]; try discriminate H; clear H.
  { cbv. discriminate. }
  { cbv. discriminate. }
  destruct (fixed_range (S754_finite false m e)) eqn:E.
  - destruct (toFixed_string_shows_rounded (S754_finite false m e) 1
                ltac:(lia) E) as [Hfix _].
    intros Heq. rewrite Heq in Hfix. discriminate Hfix.
  - cbn [fixed_range] in E. apply Z.ltb_ge in E. cbn [toFixed_string].
    apply Z.leb_le in E. rewrite E. cbn [append].
    destruct (toString_large_starts_with_digit
                (S754_finite false m e)
                (Z.pos m * 2 ^ Z.max e 0 / 2 ^ Z.max (- e) 0))
      as (c & t & -> & Hc).
    intros Heq. injection Heq as -> _. discriminate Hc.
Qed.

(** X12: for a non-empty dataset whose ratios are absent, NaN, zero or
    positive, the average ratio printed into the insight request is the
    text of a non-negative number, never [NaN]: a ratio that is NaN (no
    students and no faculty) enters the average as 0. *)
Theorem average_ratio_is_a_number (data : list Department) :
  data <> [] ->
  Z.of_nat (List.length data) < 2 ^ 32 ->
  Forall (fun d => countable_ratio (Student_Faculty_Ratio d) = true) data ->
  avgRatio (Insight.summary_of data) <> "NaN"%string
  /\ exists avg : number,
       avgRatio (Insight.summary_of data) = toFixed_string avg 1
       /\ nonneg avg = true.
Proof.
  intros Hne Hlen Hall.
  assert (H : exists avg : number,
             avgRatio (Insight.summary_of data) = toFixed_string avg 1
             /\ nonneg avg = true).
  { eexists. split; [reflexivity|].
    unfold reduce, length_number.
    destruct (of_Z_small (Z.of_nat (List.length data))) as (m & e & ->).
    - split.
      + destruct data; [contradiction|cbn [List.length]; lia].
      + apply Z.lt_trans with (2 ^ 32); [exact Hlen|reflexivity].
    - apply div_nonneg, ratio_sum_nonneg; [exact Hall|reflexivity]. }
  split; [|exact H].
  destruct H as (avg & -> & Havg). now apply toFixed_string_not_NaN.
Qed.

Lemma average_ratio_is_a_number_witness :
  avgRatio
    (Insight.summary_of
       (analyzeDepartmentData [sample "A" 40 2 100; sample "B" 0 0 0]))
  = "10.0"%string
  /\ avgRatio
       (Insight.summary_of
          (analyzeDepartmentData [sample "A" 40 2 100; sample "B" 0 0 0]))
     <> "NaN"%string.
Proof.
  split; [reflexivity|].
  apply average_ratio_is_a_number.
  - discriminate.
  - reflexivity.
  - repeat constructor.
Defined.
